(** * FactorLab backtest core: ledger, rebalance scheduling, simulation loop

    A shallow embedding of
      - [src/factorlabs/backtest/portfolio.py]  ([Position], [Portfolio]),
      - [src/factorlabs/backtest/backtester.py] ([Backtester.run],
        [Backtester._should_rebalance]),
    together with the properties of the specification that concern them.
    [rebalancer.py] is not among the sources: [Backtester.run] takes the
    planner as a parameter, and [Rebalancer.calculate_trades] below is
    written from section 4.2 of the specification.  [Backtester.run] also
    calls a method [get_holdings_value] that [class Portfolio] does not
    define: [run] takes what that call answers as a parameter too, and
    [Portfolio.get_holdings_value] is what it answers as [portfolio.py]
    stands, [AttributeError].

    Numbers.  The Python code computes on [float]s.  Every function below is
    written once, over an interface [PyNum] of the arithmetic and comparison
    operators the source uses, and every property is proved for every
    [PyNum], without any law of arithmetic assumed of it: it holds for IEEE
    binary64, the instance [float_num] (the binary64 floats of the kernel,
    which is what CPython uses), on which the concrete inputs are run.
    Where a property needs a fact of arithmetic, the fact is a hypothesis
    about the very numbers at hand (such as [c - c = 0] for the cash [c]),
    which binary64 satisfies on some inputs and not on others.

    Effects.  [buy] and [sell] mutate the ledger and may raise: they are
    functions from the ledger to the ledger they leave and an [outcome].
    The loop of [run] threads its local variables through the dates and
    stops at the first exception. *)

From Stdlib Require Import ZArith List String Bool Lia.
From Stdlib Require Import PrimFloat.
Import ListNotations.

Set Implicit Arguments.
Local Open Scope string_scope.
Local Open Scope list_scope.
Local Open Scope Z_scope.

(* ================================================================= *)
(** ** Numbers *)

(** The operators of Python's [float] that the source uses.  [ndiv] is the
    quotient for a non-zero divisor; the check for a zero divisor, which
    raises [ZeroDivisionError] in Python, is made by [pydiv] below. *)
Class PyNum (num : Type) : Type := {
  nzero : num;
  nadd : num -> num -> num;
  nsub : num -> num -> num;
  nmul : num -> num -> num;
  ndiv : num -> num -> num;
  neqb : num -> num -> bool;     (* a == b *)
  nltb : num -> num -> bool;     (* a <  b *)
  nleb : num -> num -> bool      (* a <= b *)
}.

(** [a > b] is [b < a]. *)
Definition ngtb {num} `{PyNum num} (a b : num) : bool := nltb b a.

(** IEEE 754 binary64, the representation of a Python [float]. *)
#[export] Instance float_num : PyNum float := {
  nzero := PrimFloat.zero;
  nadd := PrimFloat.add;
  nsub := PrimFloat.sub;
  nmul := PrimFloat.mul;
  ndiv := PrimFloat.div;
  neqb := PrimFloat.eqb;
  nltb := PrimFloat.ltb;
  nleb := PrimFloat.leb
}.

(* ================================================================= *)
(** ** Exceptions and outcomes *)

(** The exceptions the modelled code can raise.  [portfolio.py] raises
    [ValueError] with four different messages; the specification names them
    [InsufficientCash], [InvalidOrder], [NoPosition] and
    [InsufficientShares], and the constructors follow that naming. *)
Inductive exn : Type :=
| InsufficientCash      (* ValueError("Insufficient cash: ...") *)
| InvalidOrder          (* ValueError("Shares must be positive") *)
| NoPosition            (* ValueError("No position in ...") *)
| InsufficientShares    (* ValueError("Insufficient shares: ...") *)
| ZeroDivisionError     (* float division by zero *)
| TypeError             (* unsupported operand type(s) *)
| AttributeError        (* the object has no such attribute *)
| MissingPrice          (* planner: no price for a ticker *)
| InvalidState.         (* planner: non-positive total value *)

Inductive outcome (A : Type) : Type :=
| Ok (a : A)
| Raise (e : exn).
Arguments Ok {A} a.
Arguments Raise {A} e.

(** [a / b] on floats: [ZeroDivisionError] when [b == 0]. *)
Definition pydiv {num} `{PyNum num} (a b : num) : outcome num :=
  if neqb b nzero then Raise ZeroDivisionError else Ok (ndiv a b).

(* ================================================================= *)
(** ** Python dictionaries with string keys

    A [dict] keeps its keys in insertion order: assigning to a key that is
    present replaces the value in place, assigning to a new key appends, and
    [del] removes the entry. *)
Module Dict.
Section Dict.
Variable V : Type.

Definition t := list (string * V).

Definition empty : t := [].

Fixpoint get (k : string) (d : t) : option V :=
  match d with
  | [] => None
  | (k', v) :: d' => if String.eqb k k' then Some v else get k d'
  end.

Definition mem (k : string) (d : t) : bool :=
  match get k d with Some _ => true | None => false end.

Fixpoint set (k : string) (v : V) (d : t) : t :=
  match d with
  | [] => [(k, v)]
  | (k', v') :: d' =>
      if String.eqb k k' then (k, v) :: d' else (k', v') :: set k v d'
  end.

Fixpoint del (k : string) (d : t) : t :=
  match d with
  | [] => []
  | (k', v') :: d' =>
      if String.eqb k k' then d' else (k', v') :: del k d'
  end.

Definition keys (d : t) : list string := map fst d.
Definition values (d : t) : list V := map snd d.

(** No key occurs twice: what every Python [dict] satisfies. *)
Definition wf (d : t) : Prop := NoDup (keys d).
End Dict.
End Dict.

(* ================================================================= *)
(** ** Dates *)

(** [datetime.date]: a proleptic Gregorian calendar date. *)
Record date : Type := mkdate { year : Z; month : Z; day : Z }.

Definition date_eqb (a b : date) : bool :=
  (year a =? year b) && (month a =? month b) && (day a =? day b).

(** [datetime._is_leap] *)
Definition _is_leap (y : Z) : bool :=
  (y mod 4 =? 0) && (negb (y mod 100 =? 0) || (y mod 400 =? 0)).

(** [datetime._days_before_year]: days before January 1st of year [y]. *)
Definition _days_before_year (y : Z) : Z :=
  let y := y - 1 in y * 365 + y / 4 - y / 100 + y / 400.

(** [datetime._days_in_month] *)
Definition _days_in_month (y m : Z) : Z :=
  if m =? 2 then (if _is_leap y then 29 else 28)
  else if (m =? 4) || (m =? 6) || (m =? 9) || (m =? 11) then 30
  else 31.

(** [datetime._days_before_month]: days in year [y] before the first day
    of month [m]. *)
Definition _days_before_month (y m : Z) : Z :=
  (match m with
   | 1 => 0 | 2 => 31 | 3 => 59 | 4 => 90 | 5 => 120 | 6 => 151
   | 7 => 181 | 8 => 212 | 9 => 243 | 10 => 273 | 11 => 304 | _ => 334
   end) + (if (2 <? m) && _is_leap y then 1 else 0).

(** [date.toordinal]: January 1st of year 1 is day 1. *)
Definition toordinal (d : date) : Z :=
  _days_before_year (year d) + _days_before_month (year d) (month d) + day d.

(** [(a - b).days] *)
Definition days_between (a b : date) : Z := toordinal a - toordinal b.

(** The dates [datetime.date] accepts. *)
Definition valid_date (d : date) : Prop :=
  1 <= year d <= 9999 /\ 1 <= month d <= 12 /\
  1 <= day d <= _days_in_month (year d) (month d).

(** A date of the calendar: a month of the year and a day of that month. *)
Definition wf_date (d : date) : Prop :=
  1 <= month d <= 12 /\ 1 <= day d <= _days_in_month (year d) (month d).

(** The number of days of year [y]. *)
Definition year_length (y : Z) : Z := if _is_leap y then 366 else 365.

(** The calendar day after [d]. *)
Definition next_day (d : date) : date :=
  if day d <? _days_in_month (year d) (month d)
  then mkdate (year d) (month d) (day d + 1)
  else if month d <? 12 then mkdate (year d) (month d + 1) 1
  else mkdate (year d + 1) 1 1.

Fixpoint days_from (d : date) (n : nat) : list date :=
  match n with
  | O => []
  | S n' => d :: days_from (next_day d) n'
  end.

(** [pl.date_range(start, end, "1d", eager=True).to_list()]: every calendar
    day from [start] to [end], both included, in ascending order; empty when
    [end] is before [start]. *)
Definition date_range (start_date end_date : date) : list date :=
  days_from start_date (Z.to_nat (days_between end_date start_date + 1)).

(** [@dataclass class Position] *)
Module Position.
Record t (num : Type) : Type := mk {
  ticker : string;
  shares : num;
  entry_price : num;
  entry_date : date
}.
End Position.

(** [class Portfolio] *)
Module Portfolio.
Section Portfolio.
Context {num : Type} `{PyNum num}.

(** The attributes set by [__init__]. *)
Record t : Type := mk {
  cash : num;
  positions : Dict.t (Position.t num)
}.

(** [Portfolio.__init__] *)
Definition init (initial_cash : num) : t :=
  {| cash := initial_cash; positions := Dict.empty _ |}.

(** [sum(...)] of Python: a left fold of [+] from [0].  (From version 3.12
    on CPython adds floats with a compensated sum, which is this fold in
    exact arithmetic and may differ from it in the last bits on floats.) *)
Definition pysum (l : list num) : num := fold_left nadd l nzero.

(** [prices.get(k, 0.0)] *)
Definition get_or_zero (prices : Dict.t num) (k : string) : num :=
  match Dict.get k prices with Some v => v | None => nzero end.

(** [Portfolio.get_total_value] *)
Definition get_total_value (self : t) (prices : option (Dict.t num)) : num :=
  match prices with
  | None =>
      (* No positions valued yet, return just cash *)
      cash self
  | Some prices =>
      let positions_value :=
        pysum (map (fun pos => nmul (Position.shares pos)
                                    (get_or_zero prices (Position.ticker pos)))
                   (Dict.values (positions self))) in
      nadd (cash self) positions_value
  end.

(** [Portfolio.buy].  The method mutates [self]; the model returns the
    ledger as it stands when the method returns or raises, next to the
    outcome.  The cash is deducted before the position is computed, so a
    [ZeroDivisionError] in the averaging leaves the deduction in place. *)
Definition buy (self : t) (ticker : string) (shares price : num)
           (date : date) : t * outcome unit :=
  let cost := nmul shares price in
  if ngtb cost (cash self) then (self, Raise InsufficientCash)
  else
    (* Deduct cash *)
    let self := {| cash := nsub (cash self) cost; positions := positions self |} in
    (* Add or update position *)
    match Dict.get ticker (positions self) with
    | Some existing =>
        let total_shares := nadd (Position.shares existing) shares in
        match pydiv (nadd (nmul (Position.shares existing)
                                (Position.entry_price existing))
                          (nmul shares price))
                    total_shares with
        | Raise e => (self, Raise e)
        | Ok avg_price =>
            ({| cash := cash self;
                positions :=
                  Dict.set ticker
                    (Position.mk ticker total_shares avg_price
                                 (Position.entry_date existing))
                    (positions self) |}, Ok tt)
        end
    | None =>
        ({| cash := cash self;
            positions :=
              Dict.set ticker (Position.mk ticker shares price date)
                       (positions self) |}, Ok tt)
    end.

(** [Portfolio.sell] *)
Definition sell (self : t) (ticker : string) (shares price : num)
           (date : date) : t * outcome unit :=
  if nleb shares nzero then (self, Raise InvalidOrder)
  else
    match Dict.get ticker (positions self) with
    | None => (self, Raise NoPosition)
    | Some held =>
        if ngtb shares (Position.shares held) then (self, Raise InsufficientShares)
        else
          let proceeds := nmul shares price in
          let self := {| cash := nadd (cash self) proceeds;
                         positions := positions self |} in
          if neqb shares (Position.shares held) then
            ({| cash := cash self;
                positions := Dict.del ticker (positions self) |}, Ok tt)
          else
            ({| cash := cash self;
                positions :=
                  Dict.set ticker
                    (Position.mk (Position.ticker held)
                                 (nsub (Position.shares held) shares)
                                 (Position.entry_price held)
                                 (Position.entry_date held))
                    (positions self) |}, Ok tt)
        end.

(** [class Portfolio] defines no method [get_holdings_value]: looking the
    attribute up on a [Portfolio], as [Backtester.run] does, raises
    [AttributeError]. *)
Definition get_holdings_value (self : t) (prices : Dict.t num)
  : outcome (Dict.t num) :=
  Raise AttributeError.
End Portfolio.
Arguments t num : clear implicits.
End Portfolio.


(* ================================================================= *)
(** ** The ledger in the words of the specification *)

Section LedgerSpec.
Context {num : Type} `{PyNum num}.
Implicit Types (p : Portfolio.t num).

(** Every stored position holds a positive number of shares. *)
Definition positions_positive p : Prop :=
  forall k pos, In (k, pos) (Portfolio.positions p) ->
                nltb nzero (Position.shares pos) = true.

(** The invariant of the ledger in the data model of the specification. *)
Definition ledger_inv p : Prop :=
  nleb nzero (Portfolio.cash p) = true /\
  positions_positive p /\
  Dict.wf (Portfolio.positions p).

(** The valuation in the words of the specification: the cash plus the
    sum, over the held positions, of shares times the price of the ticker,
    a position whose ticker has no price contributing 0 to the sum. *)
Definition total_value_spec p (prices : Dict.t num) : num :=
  nadd (Portfolio.cash p)
       (Portfolio.pysum
          (map (fun pos =>
                  match Dict.get (Position.ticker pos) prices with
                  | Some price => nmul (Position.shares pos) price
                  | None => nzero
                  end)
               (Dict.values (Portfolio.positions p)))).

(** Modelled from the spec: the operation [holdings_value] of section 4.1,
    which [portfolio.py] does not define.  The per-ticker market value, a
    ticker without a price being valued as in [get_total_value].  It is one
    answer [Backtester.run] may be given for its call of
    [get_holdings_value]; the answer of the sources is
    [Portfolio.get_holdings_value]. *)
Definition holdings_value_spec p (prices : Dict.t num) : outcome (Dict.t num) :=
  Ok (map (fun kv => (fst kv,
                      nmul (Position.shares (snd kv))
                           (Portfolio.get_or_zero prices (Position.ticker (snd kv)))))
          (Portfolio.positions p)).
End LedgerSpec.

(** The operations a caller issues on a ledger, one after the other.  An
    operation that raises propagates its exception to the caller, which may
    go on using the ledger as the operation left it. *)
Inductive ledger_op (num : Type) : Type :=
| OpBuy (ticker : string) (shares price : num) (date : date)
| OpSell (ticker : string) (shares price : num) (date : date).

Section LedgerRuns.
Context {num : Type} `{PyNum num}.

Definition apply_op (p : Portfolio.t num) (o : ledger_op num)
  : Portfolio.t num * outcome unit :=
  match o with
  | OpBuy t s pr d => Portfolio.buy p t s pr d
  | OpSell t s pr d => Portfolio.sell p t s pr d
  end.

(** The ledger after each operation of the sequence, whether the operation
    returned or raised. *)
Fixpoint ledgers_after (p : Portfolio.t num) (ops : list (ledger_op num))
  : list (Portfolio.t num) :=
  match ops with
  | [] => []
  | o :: ops' =>
      let p' := fst (apply_op p o) in
      p' :: ledgers_after p' ops'
  end.
End LedgerRuns.

(* ================================================================= *)
(** ** Trades and the trade planner *)

(** [class Trade] of [rebalancer.py], as [Backtester.run] reads it. *)
Module Trade.
Record t (num : Type) : Type := mk {
  date : date;
  ticker : string;
  shares : num;
  price : num;
  side : string
}.
End Trade.

Module Rebalancer.
Section Rebalancer.
Context {num : Type} `{PyNum num}.

(** The tolerance below which a difference in shares is no trade. *)
Variable epsilon : num.

Definition nabs (x : num) : num := if nltb x nzero then nsub nzero x else x.

Definition is_sell (t : Trade.t num) : bool := String.eqb (Trade.side t) "sell".
Definition is_buy (t : Trade.t num) : bool := String.eqb (Trade.side t) "buy".

(** The tickers to plan for: the keys of the target weights, then the held
    tickers that have no target. *)
Definition planned_tickers (portfolio : Portfolio.t num)
           (target_weights : Dict.t num) : list string :=
  Dict.keys target_weights ++
  filter (fun k => negb (Dict.mem k target_weights))
         (Dict.keys (Portfolio.positions portfolio)).

(** Steps 2 to 4 of the planner for one ticker. *)
Definition plan_ticker (portfolio : Portfolio.t num) (target_weights prices : Dict.t num)
           (trade_date : date) (total : num) (k : string)
  : outcome (option (Trade.t num)) :=
  let weight := Portfolio.get_or_zero target_weights k in
  let target_value := nmul weight total in
  let current_shares :=
    match Dict.get k (Portfolio.positions portfolio) with
    | Some pos => Position.shares pos
    | None => nzero
    end in
  let emit (price target_shares : num) : option (Trade.t num) :=
    let delta := nsub target_shares current_shares in
    if nleb (nabs delta) epsilon then None
    else if ngtb delta nzero then Some (Trade.mk trade_date k delta price "buy")
    else if nltb delta nzero then Some (Trade.mk trade_date k (nabs delta) price "sell")
    else None in
  match Dict.get k prices with
  | Some price =>
      match pydiv target_value price with
      | Ok target_shares => Ok (emit price target_shares)
      | Raise e => Raise e
      end
  | None =>
      if neqb weight nzero then
        (if nleb (nabs (nsub nzero current_shares)) epsilon then Ok None
         else Raise MissingPrice)
      else Raise MissingPrice
  end.

Fixpoint plan_all (f : string -> outcome (option (Trade.t num))) (ks : list string)
  : outcome (list (Trade.t num)) :=
  match ks with
  | [] => Ok []
  | k :: ks' =>
      match f k with
      | Raise e => Raise e
      | Ok o =>
          match plan_all f ks' with
          | Raise e => Raise e
          | Ok ts => Ok (match o with Some t => t :: ts | None => ts end)
          end
      end
  end.

(** Modelled from the spec: [Rebalancer.calculate_trades] of
    [rebalancer.py], which is not among the sources.  Section 4.2 of the
    specification: the total value under the given prices, [InvalidState]
    when it is not positive; a target number of shares per ticker of the
    union of the targets and the holdings, [MissingPrice] when a ticker with
    a non-zero target has no price; a buy or a sell of the difference unless
    it is within [epsilon] of zero; the sells first, then the buys, each
    group in the order of [planned_tickers].  Where the specification is
    silent (a ticker with a zero target and no price) the ticker is skipped
    when nothing is to be traded and is a [MissingPrice] otherwise. *)
Definition calculate_trades (current_portfolio : Portfolio.t num)
           (target_weights prices : Dict.t num) (trade_date : date)
  : outcome (list (Trade.t num)) :=
  let total := Portfolio.get_total_value current_portfolio (Some prices) in
  if nleb total nzero then Raise InvalidState
  else
    match plan_all (plan_ticker current_portfolio target_weights prices trade_date total)
                   (planned_tickers current_portfolio target_weights) with
    | Raise e => Raise e
    | Ok trades => Ok (filter is_sell trades ++ filter is_buy trades)
    end.
End Rebalancer.
End Rebalancer.

(* ================================================================= *)
(** ** The simulation loop *)

(** One row of the [prices] data frame: columns [date], [ticker], [close]. *)
Module PriceRow.
Record t (num : Type) : Type := mk { date : date; ticker : string; close : num }.
End PriceRow.

(** [@dataclass class BacktestConfig] *)
Module BacktestConfig.
Record t (num : Type) : Type := mk {
  start_date : date;
  end_date : date;
  initial_cash : num;
  rebalance_frequency : string;
  transaction_cost : num
}.
End BacktestConfig.

(** One row of the equity curve. *)
Module EquityRecord.
Record t (num : Type) : Type := mk {
  date : date;
  portfolio_value : num;
  cash : num;
  positions_value : num
}.
End EquityRecord.

(** [@dataclass class BacktestResult]; the data frames are the lists of
    their rows. *)
Module BacktestResult.
Record t (num : Type) : Type := mk {
  equity_curve : list (EquityRecord.t num);
  trades : list (Trade.t num)
}.
End BacktestResult.

Module Backtester.

(** [Backtester._should_rebalance].  [frequency] is a string in the source;
    a string that is none of the four recognised ones falls through to
    [return False].  In the weekly branch [current_date - None] raises
    [TypeError]. *)
Definition _should_rebalance (current_date : date) (last_rebalance_date : option date)
           (frequency : string) : outcome bool :=
  if String.eqb frequency "never" then
    match last_rebalance_date with
    | None => Ok true
    | Some _ => Ok false
    end
  else if String.eqb frequency "daily" then Ok true
  else if String.eqb frequency "weekly" then
    match last_rebalance_date with
    | None => Raise TypeError
    | Some last => if days_between current_date last >=? 7 then Ok true else Ok false
    end
  else if String.eqb frequency "monthly" then
    match last_rebalance_date with
    | None => Ok true
    | Some last =>
        Ok (negb (month last =? month current_date) ||
            negb (year last =? year current_date))
    end
  else Ok false.

Section Run.
Context {num : Type} `{PyNum num}.

(** The planner object [Rebalancer()]: its [calculate_trades] method. *)
Variable calculate_trades :
  Portfolio.t num -> Dict.t num -> Dict.t num -> date -> outcome (list (Trade.t num)).

(** What [current_portfolio.get_holdings_value(prices_dict)] answers: the
    per-ticker values, or an exception.  As [portfolio.py] stands it is
    [Portfolio.get_holdings_value]. *)
Variable get_holdings_value :
  Portfolio.t num -> Dict.t num -> outcome (Dict.t num).

(** [{row["ticker"]: row["close"] for row in
     prices.filter(pl.col("date") == date).iter_rows(named=True)}] *)
Definition prices_on (prices : list (PriceRow.t num)) (date : date) : Dict.t num :=
  fold_left (fun d row => Dict.set (PriceRow.ticker row) (PriceRow.close row) d)
            (filter (fun row => date_eqb (PriceRow.date row) date) prices)
            (Dict.empty num).

(** The inner loop of [run]: the trades are applied in order, each one
    recorded after it is applied; an exception leaves the loop. *)
Fixpoint execute_trades (trades : list (Trade.t num))
         (current_portfolio : Portfolio.t num) (trade_records : list (Trade.t num))
  : outcome (Portfolio.t num * list (Trade.t num)) :=
  match trades with
  | [] => Ok (current_portfolio, trade_records)
  | trade :: rest =>
      let (portfolio', r) :=
        if String.eqb (Trade.side trade) "sell" then
          Portfolio.sell current_portfolio (Trade.ticker trade) (Trade.shares trade)
                         (Trade.price trade) (Trade.date trade)
        else if String.eqb (Trade.side trade) "buy" then
          Portfolio.buy current_portfolio (Trade.ticker trade) (Trade.shares trade)
                        (Trade.price trade) (Trade.date trade)
        else (current_portfolio, Ok tt) in
      match r with
      | Raise e => Raise e
      | Ok _ => execute_trades rest portfolio' (trade_records ++ [trade])
      end
  end.

(** The variables of [run] that the loop over the dates updates. *)
Record loop_state : Type := mk_loop_state {
  current_portfolio : Portfolio.t num;
  last_rebalance_date : option date;
  equity_records : list (EquityRecord.t num);
  trade_records : list (Trade.t num)
}.

(** The record appended for [date]; the call of [get_holdings_value] may
    raise. *)
Definition equity_record (current_portfolio : Portfolio.t num)
           (prices_dict : Dict.t num) (date : date) : outcome (EquityRecord.t num) :=
  let total_value := Portfolio.get_total_value current_portfolio (Some prices_dict) in
  match get_holdings_value current_portfolio prices_dict with
  | Raise e => Raise e
  | Ok positions_value =>
      let positions_value_sum := Portfolio.pysum (Dict.values positions_value) in
      Ok (EquityRecord.mk date total_value (Portfolio.cash current_portfolio)
                          positions_value_sum)
  end.

(** The body of [for date in list_of_dates]. *)
Definition run_date (prices : list (PriceRow.t num)) (target_weights : Dict.t num)
           (config : BacktestConfig.t num) (st : loop_state) (date : date)
  : outcome loop_state :=
  let prices_dict := prices_on prices date in
  match _should_rebalance date (last_rebalance_date st)
                          (BacktestConfig.rebalance_frequency config) with
  | Raise e => Raise e
  | Ok rebalancing =>
      let after_trades :=
        if rebalancing then
          match calculate_trades (current_portfolio st) target_weights prices_dict date with
          | Raise e => Raise e
          | Ok rebalancing_trades =>
              match execute_trades rebalancing_trades (current_portfolio st)
                                   (trade_records st) with
              | Raise e => Raise e
              | Ok (p, trs) => Ok (p, Some date, trs)
              end
          end
        else Ok (current_portfolio st, last_rebalance_date st, trade_records st) in
      match after_trades with
      | Raise e => Raise e
      | Ok (p, last, trs) =>
          match equity_record p prices_dict date with
          | Raise e => Raise e
          | Ok record =>
              Ok {| current_portfolio := p;
                    last_rebalance_date := last;
                    equity_records := equity_records st ++ [record];
                    trade_records := trs |}
          end
      end
  end.

Fixpoint run_loop (prices : list (PriceRow.t num)) (target_weights : Dict.t num)
         (config : BacktestConfig.t num) (list_of_dates : list date) (st : loop_state)
  : outcome loop_state :=
  match list_of_dates with
  | [] => Ok st
  | date :: rest =>
      match run_date prices target_weights config st date with
      | Raise e => Raise e
      | Ok st' => run_loop prices target_weights config rest st'
      end
  end.

Definition initial_state (config : BacktestConfig.t num) : loop_state :=
  {| current_portfolio := Portfolio.init (BacktestConfig.initial_cash config);
     last_rebalance_date := None;
     equity_records := [];
     trade_records := [] |}.

(** [Backtester.run] *)
Definition run (prices : list (PriceRow.t num)) (target_weights : Dict.t num)
           (config : BacktestConfig.t num) : outcome (BacktestResult.t num) :=
  let list_of_dates :=
    date_range (BacktestConfig.start_date config) (BacktestConfig.end_date config) in
  match run_loop prices target_weights config list_of_dates (initial_state config) with
  | Raise e => Raise e
  | Ok st => Ok (BacktestResult.mk (equity_records st) (trade_records st))
  end.
End Run.
End Backtester.

(* ================================================================= *)
(** ** Concrete ledgers, on binary64 floats *)

Module Examples.
Local Open Scope float_scope.

Definition d_2020_01_01 : date := mkdate 2020 1 1.
Definition d_2020_01_05 : date := mkdate 2020 1 5.
Definition d_2020_02_03 : date := mkdate 2020 2 3.

(** [Portfolio(initial_cash=100000.0)] *)
Definition fresh : Portfolio.t float := Portfolio.init 100000.

(** [Portfolio(initial_cash=100.0)] *)
Definition small : Portfolio.t float := Portfolio.init 100.

(** A ledger that already holds 10 shares of AAPL bought at 1.0, as
    [Portfolio(1010.0)] holds them after [buy("AAPL", 10.0, 1.0, ...)]. *)
Definition holding : Portfolio.t float :=
  fst (Portfolio.buy (Portfolio.init 1010) "AAPL" 10 1 d_2020_01_01).


(** A ledger whose shares have overflowed: [Portfolio(100.0)], then 2.0**1023
    shares of AAPL bought at 2.0**-1023, twice, each for a cost of 1.0.  The
    cash is 98.0 and the position holds [inf] shares. *)
Definition unbounded_holding : Portfolio.t float :=
  fst (Portfolio.buy
         (fst (Portfolio.buy small "AAPL" 0x1p1023 0x1p-1023 d_2020_01_01))
         "AAPL" 0x1p1023 0x1p-1023 d_2020_01_05).

(** The fixture [portfolio_with_aapl] of [tests/test_rebalancer.py]:
    10000 in cash, then 50 shares of AAPL bought at 100. *)
Definition portfolio_with_aapl : Portfolio.t float :=
  fst (Portfolio.buy (Portfolio.init 10000) "AAPL" 50 100 d_2020_01_01).

Definition d_2020_01_02 : date := mkdate 2020 1 2.

(** The tolerance of the planner in the examples: 2^-30. *)
Definition epsilon : float := 0x1p-30.

(** [test_rebalance_swap_positions]: everything into MSFT. *)
Definition swap_weights : Dict.t float := [("MSFT", 1)].
Definition swap_prices : Dict.t float := [("AAPL", 100); ("MSFT", 50)].
Definition swap_sell : Trade.t float := Trade.mk d_2020_01_02 "AAPL" 50 100 "sell".
Definition swap_buy : Trade.t float := Trade.mk d_2020_01_02 "MSFT" 200 50 "buy".

(** The end-to-end scenario of the specification: 10000 in cash, all of it
    targeted at AAPL, which closes at 100 and then at 110; no rebalance
    after the first date. *)
Definition two_day_prices : list (PriceRow.t float) :=
  [PriceRow.mk d_2020_01_01 "AAPL" 100; PriceRow.mk d_2020_01_02 "AAPL" 110].
Definition two_day_weights : Dict.t float := [("AAPL", 1)].
Definition two_day_config : BacktestConfig.t float :=
  BacktestConfig.mk d_2020_01_01 d_2020_01_02 10000 "never" 0.
Definition two_day_result : BacktestResult.t float :=
  BacktestResult.mk
    [EquityRecord.mk d_2020_01_01 10000 0 10000;
     EquityRecord.mk d_2020_01_02 11000 0 11000]
    [Trade.mk d_2020_01_01 "AAPL" 100 100 "buy"].
End Examples.

(* ================================================================= *)
(** ** Sequences of operations, and what the ledger files where *)

Section LedgerSequences.
Context {num : Type} `{PyNum num}.

(** The cash an operation that succeeds leaves: a buy takes
    [shares * price] off, a sell adds it. *)
Definition cash_flow (c : num) (o : ledger_op num) : num :=
  match o with
  | OpBuy _ s pr _ => nsub c (nmul s pr)
  | OpSell _ s pr _ => nadd c (nmul s pr)
  end.

(** Operations issued one after the other by a caller that does not catch:
    the first exception ends the sequence. *)
Fixpoint apply_ops (p : Portfolio.t num) (ops : list (ledger_op num))
  : Portfolio.t num * outcome unit :=
  match ops with
  | [] => (p, Ok tt)
  | o :: ops' =>
      match apply_op p o with
      | (p', Ok _) => apply_ops p' ops'
      | (p', Raise e) => (p', Raise e)
      end
  end.

(** Every position is stored under the ticker it names. *)
Definition keys_consistent (p : Portfolio.t num) : Prop :=
  forall k pos, In (k, pos) (Portfolio.positions p) -> Position.ticker pos = k.

(** The close of the last row of the price table for a date and a
    ticker, if there is one. *)
Definition last_close (prices : list (PriceRow.t num)) (date : date)
           (ticker : string) : option num :=
  fold_left (fun acc row =>
               if date_eqb (PriceRow.date row) date &&
                  String.eqb (PriceRow.ticker row) ticker
               then Some (PriceRow.close row) else acc)
            prices None.

(** The ledger operation a trade of the planner stands for in the inner
    loop of [run]; none when its side is neither ["sell"] nor ["buy"]. *)
Definition op_of_trade (trade : Trade.t num) : option (ledger_op num) :=
  if String.eqb (Trade.side trade) "sell" then
    Some (OpSell (Trade.ticker trade) (Trade.shares trade) (Trade.price trade)
                 (Trade.date trade))
  else if String.eqb (Trade.side trade) "buy" then
    Some (OpBuy (Trade.ticker trade) (Trade.shares trade) (Trade.price trade)
                (Trade.date trade))
  else None.

(** The records of dates on which nothing is traded, as the loop of [run]
    builds them one date after the other for a ledger that does not change;
    the first call of [get_holdings_value] that raises ends it. *)
Fixpoint records_of
         (get_holdings_value : Portfolio.t num -> Dict.t num -> outcome (Dict.t num))
         (prices : list (PriceRow.t num)) (p : Portfolio.t num) (dates : list date)
  : outcome (list (EquityRecord.t num)) :=
  match dates with
  | [] => Ok []
  | d :: dates' =>
      match Backtester.equity_record get_holdings_value p
                                     (Backtester.prices_on prices d) d with
      | Raise e => Raise e
      | Ok record =>
          match records_of get_holdings_value prices p dates' with
          | Raise e => Raise e
          | Ok records => Ok (record :: records)
          end
      end
  end.
End LedgerSequences.

(** Further concrete inputs. *)
Module Scenarios.
Local Open Scope float_scope.

Definition d_2024_01_15 : date := mkdate 2024 1 15.
Definition d_2024_01_18 : date := mkdate 2024 1 18.
Definition d_2024_01_22 : date := mkdate 2024 1 22.
Definition d_2024_02_28 : date := mkdate 2024 2 28.
Definition d_2024_03_02 : date := mkdate 2024 3 2.

(** 600 in cash, 10 shares of AAPL bought at 20 and 4 of MSFT at 50. *)
Definition two_stocks : Portfolio.t float :=
  Portfolio.mk 600
    [("AAPL", Position.mk "AAPL" 10 20 d_2024_01_15);
     ("MSFT", Position.mk "MSFT" 4 50 d_2024_01_15)].

(** A price table with two rows for AAPL on the same date, and a row of
    another date in between. *)
Definition repeated_rows : list (PriceRow.t float) :=
  [PriceRow.mk d_2024_01_15 "AAPL" 100;
   PriceRow.mk d_2024_01_18 "AAPL" 90;
   PriceRow.mk d_2024_01_15 "MSFT" 50;
   PriceRow.mk d_2024_01_15 "AAPL" 101].

(** A planner that asks for nothing. *)
Definition no_trades (_ : Portfolio.t float) (_ _ : Dict.t float) (_ : date)
  : outcome (list (Trade.t float)) := Ok [].

(** A planner that asks for 10 shares of AAPL at 100 whenever it is
    called. *)
Definition buy_ten (_ : Portfolio.t float) (_ _ : Dict.t float) (d : date)
  : outcome (list (Trade.t float)) := Ok [Trade.mk d "AAPL" 10 100 "buy"].

Definition aapl_rows : list (PriceRow.t float) :=
  [PriceRow.mk d_2024_01_15 "AAPL" 100; PriceRow.mk d_2024_01_18 "AAPL" 120].

Definition config_of (start_date end_date : date) (frequency : string)
  : BacktestConfig.t float :=
  BacktestConfig.mk start_date end_date 5000 frequency 0.

(** A trade that is neither a sale nor a purchase. *)
Definition hold_trade : Trade.t float := Trade.mk d_2024_01_15 "AAPL" 7 100 "hold".

(** A purchase no ledger of the scenarios can pay for. *)
Definition big_buy : Trade.t float := Trade.mk d_2024_01_15 "AAPL" 100 100 "buy".

Definition sell_five : ledger_op float := OpSell "AAPL" 5 25 d_2024_01_18.
Definition buy_two : ledger_op float := OpBuy "MSFT" 2 40 d_2024_01_18.
End Scenarios.

(* ================================================================= *)
(** * Properties *)

(** ** Dictionaries *)

Section DictFacts.
Variable V : Type.
Implicit Types (d : Dict.t V) (k : string) (v : V).

Lemma dict_get_set_same d k v : Dict.get k (Dict.set k v d) = Some v.
Proof.
  induction d as [|[k' v'] d IH]; simpl.
  - now rewrite String.eqb_refl.
  - destruct (String.eqb k k') eqn:E; simpl; rewrite ?String.eqb_refl, ?E; auto.
Qed.

Lemma dict_get_set_other d k k' v :
  k <> k' -> Dict.get k' (Dict.set k v d) = Dict.get k' d.
Proof.
  intros Hne. induction d as [|[k0 v0] d IH]; simpl.
  - destruct (String.eqb_spec k' k); congruence.
  - destruct (String.eqb_spec k k0) as [->|Hk]; simpl.
    + destruct (String.eqb_spec k' k0); congruence.
    + destruct (String.eqb_spec k' k0); auto.
Qed.

Lemma dict_get_In d k v : Dict.get k d = Some v -> In (k, v) d.
Proof.
  induction d as [|[k' v'] d IH]; simpl; [discriminate|].
  destruct (String.eqb_spec k k') as [->|Hk]; intros E.
  - injection E as ->. now left.
  - right. auto.
Qed.

Lemma dict_get_None_keys d k : Dict.get k d = None -> ~ In k (Dict.keys d).
Proof.
  induction d as [|[k' v'] d IH]; simpl; [tauto|].
  destruct (String.eqb_spec k k') as [->|Hk]; [discriminate|].
  intros E [E'|E']; [congruence|]. now apply IH.
Qed.

Lemma dict_In_set d k v kv :
  In kv (Dict.set k v d) -> kv = (k, v) \/ In kv d.
Proof.
  induction d as [|[k' v'] d IH]; simpl.
  - intros [<-|[]]. now left.
  - destruct (String.eqb k k'); simpl.
    + intros [<-|Hin]; auto.
    + intros [<-|Hin]; auto. destruct (IH Hin); auto.
Qed.

Lemma dict_In_del d k kv : In kv (Dict.del k d) -> In kv d.
Proof.
  induction d as [|[k' v'] d IH]; simpl; [tauto|].
  destruct (String.eqb k k'); simpl; [auto|].
  intros [<-|Hin]; auto.
Qed.

Lemma dict_keys_set_present d k v v0 :
  Dict.get k d = Some v0 -> Dict.keys (Dict.set k v d) = Dict.keys d.
Proof.
  induction d as [|[k' v'] d IH]; simpl; [discriminate|].
  destruct (String.eqb_spec k k') as [->|Hk]; simpl; [reflexivity|].
  intros E. f_equal. auto.
Qed.

Lemma dict_keys_set_absent d k v :
  Dict.get k d = None -> Dict.keys (Dict.set k v d) = Dict.keys d ++ [k].
Proof.
  induction d as [|[k' v'] d IH]; simpl; [reflexivity|].
  destruct (String.eqb_spec k k') as [->|Hk]; simpl; [discriminate|].
  intros E. f_equal. auto.
Qed.

Lemma dict_wf_set d k v : Dict.wf d -> Dict.wf (Dict.set k v d).
Proof.
  unfold Dict.wf. intros Hwf.
  destruct (Dict.get k d) as [v0|] eqn:E.
  - erewrite dict_keys_set_present by eassumption. assumption.
  - rewrite dict_keys_set_absent by assumption.
    apply NoDup_app; [assumption | repeat constructor; simpl; tauto | ].
    intros x Hx [<-|[]]. now apply (dict_get_None_keys _ _ E) in Hx.
Qed.

Lemma dict_wf_del d k : Dict.wf d -> Dict.wf (Dict.del k d).
Proof.
  unfold Dict.wf. induction d as [|[k' v'] d IH]; simpl; [auto|].
  intros Hwf. inversion Hwf as [|? ? Hnin Hnd]; subst.
  destruct (String.eqb k k'); simpl; [assumption|].
  constructor; [|auto].
  intros Hin. apply Hnin.
  apply in_map_iff in Hin as [kv [<- Hin]].
  apply in_map. eapply dict_In_del; eauto.
Qed.

Lemma dict_get_del_same d k : Dict.wf d -> Dict.get k (Dict.del k d) = None.
Proof.
  unfold Dict.wf. induction d as [|[k' v'] d IH]; simpl; [auto|].
  intros Hwf. inversion Hwf as [|? ? Hnin Hnd]; subst.
  destruct (String.eqb_spec k k') as [->|Hk]; simpl.
  - destruct (Dict.get k' d) eqn:E; [|reflexivity].
    exfalso. apply Hnin. apply dict_get_In in E.
    change k' with (fst (k', v)). now apply in_map.
  - destruct (String.eqb_spec k k'); [congruence|auto].
Qed.
End DictFacts.

(** ** The ledger *)

Section LedgerFacts.
Context {num : Type} `{PyNum num}.
Implicit Types (p : Portfolio.t num) (t : string) (s price : num) (d : date).


(** What a successful [buy] has done. *)
Lemma buy_ok_inv p t s price d p' :
  Portfolio.buy p t s price d = (p', Ok tt) ->
  ngtb (nmul s price) (Portfolio.cash p) = false /\
  Portfolio.cash p' = nsub (Portfolio.cash p) (nmul s price) /\
  match Dict.get t (Portfolio.positions p) with
  | None =>
      Portfolio.positions p' =
      Dict.set t (Position.mk t s price d) (Portfolio.positions p)
  | Some existing =>
      let total_shares := nadd (Position.shares existing) s in
      neqb total_shares nzero = false /\
      Portfolio.positions p' =
      Dict.set t
        (Position.mk t total_shares
           (ndiv (nadd (nmul (Position.shares existing) (Position.entry_price existing))
                       (nmul s price))
                 total_shares)
           (Position.entry_date existing))
        (Portfolio.positions p)
  end.
Proof.
  unfold Portfolio.buy.
  destruct (ngtb (nmul s price) (Portfolio.cash p)) eqn:Ecash; [discriminate|].
  cbn [Portfolio.positions Portfolio.cash].
  destruct (Dict.get t (Portfolio.positions p)) as [existing|] eqn:Eget.
  - unfold pydiv.
    destruct (neqb (nadd (Position.shares existing) s) nzero) eqn:Ez; [discriminate|].
    intros E. injection E as <-. cbn. auto.
  - intros E. injection E as <-. cbn. auto.
Qed.

(** The only exceptions of [buy], and the ledger each one leaves. *)
Lemma buy_raise_inv p t s price d p' e :
  Portfolio.buy p t s price d = (p', Raise e) ->
  (e = InsufficientCash /\ ngtb (nmul s price) (Portfolio.cash p) = true /\ p' = p) \/
  (e = ZeroDivisionError /\ ngtb (nmul s price) (Portfolio.cash p) = false /\
   exists existing, Dict.get t (Portfolio.positions p) = Some existing /\
                    neqb (nadd (Position.shares existing) s) nzero = true).
Proof.
  unfold Portfolio.buy.
  destruct (ngtb (nmul s price) (Portfolio.cash p)) eqn:Ecash.
  - intros E. injection E as <- <-. auto.
  - cbn [Portfolio.positions Portfolio.cash].
    destruct (Dict.get t (Portfolio.positions p)) as [existing|] eqn:Eget; [|discriminate].
    unfold pydiv.
    destruct (neqb (nadd (Position.shares existing) s) nzero) eqn:Ez; [|discriminate].
    intros E. injection E as <- <-. right. eauto.
Qed.

(** What a successful [sell] has done. *)
Lemma sell_ok_inv p t s price d p' :
  Portfolio.sell p t s price d = (p', Ok tt) ->
  nleb s nzero = false /\
  exists held,
    Dict.get t (Portfolio.positions p) = Some held /\
    ngtb s (Position.shares held) = false /\
    Portfolio.cash p' = nadd (Portfolio.cash p) (nmul s price) /\
    Portfolio.positions p' =
    if neqb s (Position.shares held) then Dict.del t (Portfolio.positions p)
    else Dict.set t
           (Position.mk (Position.ticker held) (nsub (Position.shares held) s)
                        (Position.entry_price held) (Position.entry_date held))
           (Portfolio.positions p).
Proof.
  unfold Portfolio.sell.
  destruct (nleb s nzero) eqn:Epos; [discriminate|].
  destruct (Dict.get t (Portfolio.positions p)) as [held|] eqn:Eget; [|discriminate].
  destruct (ngtb s (Position.shares held)) eqn:Egt; [discriminate|].
  cbn [Portfolio.positions Portfolio.cash].
  intros Hs. split; [reflexivity|]. exists held.
  destruct (neqb s (Position.shares held)); injection Hs as <-; auto.
Qed.

(** A failed [sell] has changed nothing. *)
Lemma sell_raise_inv p t s price d p' e :
  Portfolio.sell p t s price d = (p', Raise e) -> p' = p.
Proof.
  unfold Portfolio.sell.
  destruct (nleb s nzero); [now intros [= <-]|].
  destruct (Dict.get t (Portfolio.positions p)) as [held|]; [|now intros [= <-]].
  destruct (ngtb s (Position.shares held)); [now intros [= <-]|].
  destruct (neqb s (Position.shares held)); discriminate.
Qed.

(** [buy] on a ticker that is held: the weighted average of the old cost
    basis and the new price, the shares added up, the entry date kept. *)
Lemma buy_existing_position p t s price d p' existing :
  Dict.get t (Portfolio.positions p) = Some existing ->
  Portfolio.buy p t s price d = (p', Ok tt) ->
  let total_shares := nadd (Position.shares existing) s in
  neqb total_shares nzero = false /\
  Dict.get t (Portfolio.positions p') =
  Some (Position.mk t total_shares
          (ndiv (nadd (nmul (Position.shares existing) (Position.entry_price existing))
                      (nmul s price))
                total_shares)
          (Position.entry_date existing)).
Proof.
  intros Eget Hbuy. apply buy_ok_inv in Hbuy as (_ & _ & Hpos).
  rewrite Eget in Hpos. cbv zeta in *. destruct Hpos as [Hz ->].
  split; [assumption|]. apply dict_get_set_same.
Qed.

(** [buy] on a ticker that is not held opens the position. *)
Lemma buy_new_position p t s price d p' :
  Dict.get t (Portfolio.positions p) = None ->
  Portfolio.buy p t s price d = (p', Ok tt) ->
  Dict.get t (Portfolio.positions p') = Some (Position.mk t s price d).
Proof.
  intros Eget Hbuy. apply buy_ok_inv in Hbuy as (_ & _ & Hpos).
  rewrite Eget in Hpos. rewrite Hpos. apply dict_get_set_same.
Qed.

(** A [sell] of less than the whole position takes the shares off and
    leaves the rest of the position as it was. *)
Lemma sell_partial_position p t s price d p' held :
  Dict.get t (Portfolio.positions p) = Some held ->
  Portfolio.sell p t s price d = (p', Ok tt) ->
  neqb s (Position.shares held) = false ->
  Dict.get t (Portfolio.positions p') =
  Some (Position.mk (Position.ticker held) (nsub (Position.shares held) s)
                    (Position.entry_price held) (Position.entry_date held)).
Proof.
  intros Eget Hsell Hpart.
  apply sell_ok_inv in Hsell as (_ & held' & Eget' & _ & _ & Hpos).
  rewrite Eget in Eget'. injection Eget' as <-.
  rewrite Hpart in Hpos. rewrite Hpos. apply dict_get_set_same.
Qed.


End LedgerFacts.




(** ** The claims about the ledger *)

Section LedgerClaims.
Context {num : Type} `{PyNum num}.
Implicit Types (t : string) (s price : num) (d : date).

(** C1 (as amended).  On a ledger that does not hold the ticker, a buy of
    [s1] shares at [p1] followed by a buy of [s2] shares at [p2], both
    succeeding, leaves a position of [s1 + s2] shares whose average cost is
    [(s1*p1 + s2*p2) / (s1 + s2)], a quotient by a non-zero number, and
    whose entry date is the date of the first buy.  A successful sell of
    that ticker right after, of a number of shares other than all of them,
    takes the shares sold off the position and leaves the average cost and
    the entry date as they were. *)
Theorem buy_twice_average_cost (p pA pB : Portfolio.t num) t (s1 p1 : num) dA
        (s2 p2 : num) dB :
  Dict.get t (Portfolio.positions p) = None ->
  Portfolio.buy p t s1 p1 dA = (pA, Ok tt) ->
  Portfolio.buy pA t s2 p2 dB = (pB, Ok tt) ->
  let avg_cost := ndiv (nadd (nmul s1 p1) (nmul s2 p2)) (nadd s1 s2) in
  neqb (nadd s1 s2) nzero = false /\
  Dict.get t (Portfolio.positions pB) =
    Some (Position.mk t (nadd s1 s2) avg_cost dA) /\
  forall s price dC pC,
    Portfolio.sell pB t s price dC = (pC, Ok tt) ->
    neqb s (nadd s1 s2) = false ->
    Dict.get t (Portfolio.positions pC) =
      Some (Position.mk t (nsub (nadd s1 s2) s) avg_cost dA).
Proof.
  intros Hnew HbuyA HbuyB avg_cost.
  pose proof (buy_new_position _ _ _ _ _ Hnew HbuyA) as HposA.
  destruct (buy_existing_position _ _ _ _ _ HposA HbuyB) as [Hnz HposB].
  cbn in Hnz, HposB. fold avg_cost in HposB.
  split; [assumption|]. split; [assumption|].
  intros s price dC pC Hsell Hpart.
  exact (sell_partial_position _ _ _ _ _ HposB Hsell Hpart).
Qed.

(** C10.  Without a price map, [get_total_value] is the cash balance,
    whatever positions the ledger holds. *)
Theorem get_total_value_without_prices (p : Portfolio.t num) :
  Portfolio.get_total_value p None = Portfolio.cash p.
Proof. reflexivity. Qed.

(** [sell] of a non-positive number of shares raises [InvalidOrder] and
    leaves the ledger as it was. *)
Lemma sell_nonpositive_shares (p : Portfolio.t num) t s price d :
  nleb s nzero = true ->
  Portfolio.sell p t s price d = (p, Raise InvalidOrder).
Proof. intros Hs. unfold Portfolio.sell. now rewrite Hs. Qed.

(** [buy] never raises [InvalidOrder]: it has no check on the number of
    shares. *)
Lemma buy_never_invalid_order (p : Portfolio.t num) t s price d :
  snd (Portfolio.buy p t s price d) <> Raise InvalidOrder.
Proof.
  destruct (Portfolio.buy p t s price d) as [p' [[]|e]] eqn:E; cbn; [discriminate|].
  apply buy_raise_inv in E as [(-> & _)|(-> & _)]; discriminate.
Qed.


(** C5 (as amended).  With a price map, [get_total_value] is the cash plus
    the sum, from left to right over the held positions, of shares times
    the price of the position's ticker, taken as [0.0] when the map has
    none; the function is total, so a missing price is no error.  A
    position whose ticker has no price therefore enters the sum as
    [shares * 0.0]: when that product is [0.0] for each such position, the
    value is the one of the specification, where these positions
    contribute 0. *)
Theorem get_total_value_with_prices (p : Portfolio.t num) (prices : Dict.t num) :
  Portfolio.get_total_value p (Some prices) =
    nadd (Portfolio.cash p)
         (Portfolio.pysum
            (map (fun pos =>
                    nmul (Position.shares pos)
                         (match Dict.get (Position.ticker pos) prices with
                          | Some price => price
                          | None => nzero
                          end))
                 (Dict.values (Portfolio.positions p)))) /\
  ((forall pos, In pos (Dict.values (Portfolio.positions p)) ->
                Dict.get (Position.ticker pos) prices = None ->
                nmul (Position.shares pos) nzero = nzero) ->
   Portfolio.get_total_value p (Some prices) = total_value_spec p prices).
Proof.
  split; [reflexivity|].
  intros Hzero. unfold Portfolio.get_total_value, total_value_spec. do 2 f_equal.
  apply map_ext_in. intros pos Hin. unfold Portfolio.get_or_zero.
  destruct (Dict.get (Position.ticker pos) prices) eqn:E; [reflexivity|].
  now apply Hzero.
Qed.
End LedgerClaims.

Section LedgerInstances.
Import Examples.
Local Open Scope float_scope.

(** The theorem of C1 at the ledger of the tests: 100 shares at 150, then
    100 more at 160, an average cost of 155; then 50 shares sold. *)
Lemma buy_twice_average_cost_witness :
  let pA := fst (Portfolio.buy fresh "AAPL" 100 150 d_2020_01_01) in
  let pB := fst (Portfolio.buy pA "AAPL" 100 160 d_2020_01_05) in
  let pC := fst (Portfolio.sell pB "AAPL" 50 170 d_2020_02_03) in
  Dict.get "AAPL" (Portfolio.positions pB) =
    Some (Position.mk "AAPL" 200 155 d_2020_01_01) /\
  Dict.get "AAPL" (Portfolio.positions pC) =
    Some (Position.mk "AAPL" 150 155 d_2020_01_01).
Proof.
  intros pA pB pC.
  destruct (@buy_twice_average_cost float float_num fresh pA pB "AAPL"
              100 150 d_2020_01_01 100 160 d_2020_01_05)
    as (_ & HposB & Hsell).
  - reflexivity.
  - vm_compute. reflexivity.
  - vm_compute. reflexivity.
  - split.
    + rewrite HposB. vm_compute. reflexivity.
    + rewrite (Hsell 50 170 d_2020_02_03 pC).
      * vm_compute. reflexivity.
      * vm_compute. reflexivity.
      * vm_compute. reflexivity.
Defined.

(** C1 as it is stated fails on a ledger that already holds the ticker:
    with 10 shares of AAPL held at an average cost of 1, buying 10 at 2 and
    then 10 at 3 leaves 30 shares at an average cost of 2, neither
    [10 + 10] shares nor [(10*2 + 10*3) / (10 + 10)]. *)
Lemma buy_twice_on_held_ticker :
  let r1 := Portfolio.buy holding "AAPL" 10 2 d_2020_01_05 in
  let r2 := Portfolio.buy (fst r1) "AAPL" 10 3 d_2020_02_03 in
  snd r1 = Ok tt /\ snd r2 = Ok tt /\
  Dict.get "AAPL" (Portfolio.positions (fst r2)) =
    Some (Position.mk "AAPL" 30 2 d_2020_01_01) /\
  neqb 30 (nadd 10 10) = false /\
  neqb 2 (ndiv (nadd (nmul 10 2) (nmul 10 3)) (nadd 10 10)) = false.
Proof. vm_compute. repeat split; reflexivity. Qed.

(** C4, at the input where the code departs from it: [buy] of -5 shares,
    and of 0 shares, does not raise; it returns normally, with the cash
    raised by 50 and a position of -5 shares stored in the first case and
    with a position of 0 shares stored in the second. *)
Theorem buy_nonpositive_shares_accepted :
  Portfolio.buy small "AAPL" (-5) 10 d_2020_01_01 =
    (Portfolio.mk 150 [("AAPL", Position.mk "AAPL" (-5) 10 d_2020_01_01)], Ok tt) /\
  Portfolio.buy small "AAPL" 0 10 d_2020_01_01 =
    (Portfolio.mk 100 [("AAPL", Position.mk "AAPL" 0 10 d_2020_01_01)], Ok tt).
Proof. split; vm_compute; reflexivity. Qed.

(** C3, at the input where the code departs from it: from a fresh ledger
    with 100 in cash, the single operation [buy("AAPL", -5.0, 10.0, ...)],
    at a positive price, succeeds and leaves a ledger that stores a position
    of -5 shares, against the invariant. *)
Theorem buy_negative_shares_breaks_invariant :
  let ops := [OpBuy "AAPL" (-5) 10 d_2020_01_01] in
  let p' := Portfolio.mk 150 [("AAPL", Position.mk "AAPL" (-5) 10 d_2020_01_01)] in
  nleb nzero 100 = true /\
  apply_op (Portfolio.init 100) (OpBuy "AAPL" (-5) 10 d_2020_01_01) = (p', Ok tt) /\
  ledgers_after (Portfolio.init 100) ops = [p'] /\
  ~ ledger_inv p'.
Proof.
  cbv zeta. repeat split; try (vm_compute; reflexivity).
  intros (_ & Hpos & _).
  specialize (Hpos "AAPL" _ (or_introl eq_refl)).
  vm_compute in Hpos. discriminate.
Qed.

(** The rejection scenario of the specification, on binary64: with 100
    in cash, a buy of 10 shares at 50 raises [InsufficientCash] and leaves
    the ledger as it was. *)
Lemma buy_insufficient_cash_example :
  Portfolio.buy small "AAPL" 10 50 d_2020_01_01 = (small, Raise InsufficientCash).
Proof. vm_compute. reflexivity. Qed.



(** The theorem of C5 on binary64: 600 in cash, 10 shares of AAPL priced
    at 25 and 4 shares of MSFT without a price are worth 850. *)
Lemma get_total_value_with_prices_witness :
  Portfolio.get_total_value Scenarios.two_stocks (Some [("AAPL", 25)]) = 850.
Proof.
  destruct (@get_total_value_with_prices float float_num Scenarios.two_stocks
              [("AAPL", 25)]) as [_ Hspec].
  transitivity (total_value_spec Scenarios.two_stocks [("AAPL", 25)]).
  - apply Hspec. intros pos [<-|[<-|[]]] _; vm_compute; reflexivity.
  - vm_compute. reflexivity.
Defined.

(** C5 as it is stated fails on binary64 at a position whose shares have
    overflowed.  With 100 in cash, two buys of 2.0**1023 shares of AAPL at
    2.0**-1023 succeed, for a cost of 1.0 each, and leave 98 in cash and a
    position of [inf] shares.  With a price map that has no price for
    AAPL the position enters the sum as [inf * 0.0], and [get_total_value]
    returns NaN, where the specification has the cash, 98. *)
Lemma total_value_of_unpriced_overflowed_shares :
  let r1 := Portfolio.buy small "AAPL" 0x1p1023 0x1p-1023 d_2020_01_01 in
  let r2 := Portfolio.buy (fst r1) "AAPL" 0x1p1023 0x1p-1023 d_2020_01_05 in
  snd r1 = Ok tt /\ snd r2 = Ok tt /\
  unbounded_holding =
    Portfolio.mk 98 [("AAPL", Position.mk "AAPL" infinity 0 d_2020_01_01)] /\
  total_value_spec unbounded_holding [] = 98 /\
  neqb (Portfolio.get_total_value unbounded_holding (Some [])) 98 = false /\
  PrimFloat.is_nan (Portfolio.get_total_value unbounded_holding (Some [])) = true.
Proof. vm_compute. repeat split; reflexivity. Qed.

End LedgerInstances.

(** ** Rebalance scheduling *)

(** With a last rebalance date, the weekly rule answers whether at least
    7 calendar days have elapsed since then. *)
Lemma should_rebalance_weekly_elapsed (current_date last : date) :
  Backtester._should_rebalance current_date (Some last) "weekly" =
  Ok (7 <=? days_between current_date last).
Proof.
  cbn. rewrite Z.geb_leb. now destruct (7 <=? days_between current_date last).
Qed.

(** C6, at the input where the code departs from it: on the first date,
    when no rebalance has happened yet, the weekly rule raises [TypeError]
    (the difference of a date and [None]) instead of answering [True]. *)
Theorem should_rebalance_weekly_first_date_raises (current_date : date) :
  Backtester._should_rebalance current_date None "weekly" = Raise TypeError.
Proof. reflexivity. Qed.

(** C7.  The monthly rule always answers, and answers [True] exactly when
    there is no last rebalance date or its (month, year) differs from that
    of the current date; after a rebalance on 2024-01-15 it answers [True]
    on 2024-02-01 and [False] on 2024-01-20. *)
Theorem should_rebalance_monthly :
  (forall (current_date : date) (last_rebalance_date : option date),
     exists b : bool,
       Backtester._should_rebalance current_date last_rebalance_date "monthly" = Ok b /\
       (b = true <->
        (last_rebalance_date = None \/
         exists last, last_rebalance_date = Some last /\
                      (month last, year last) <> (month current_date, year current_date)))) /\
  Backtester._should_rebalance (mkdate 2024 2 1) (Some (mkdate 2024 1 15)) "monthly"
    = Ok true /\
  Backtester._should_rebalance (mkdate 2024 1 20) (Some (mkdate 2024 1 15)) "monthly"
    = Ok false.
Proof.
  split; [|split; reflexivity].
  intros current_date [last|]; cbn.
  - eexists. split; [reflexivity|].
    destruct (Z.eqb_spec (month last) (month current_date)) as [Em|Em];
      destruct (Z.eqb_spec (year last) (year current_date)) as [Ey|Ey]; cbn; split;
      try discriminate; try reflexivity.
    + intros [E|(l & E & Hne)]; [discriminate|]. injection E as <-.
      exfalso. apply Hne. congruence.
    + intros _. right. exists last. split; [reflexivity|]. congruence.
    + intros _. right. exists last. split; [reflexivity|]. congruence.
    + intros _. right. exists last. split; [reflexivity|]. congruence.
  - exists true. split; [reflexivity|]. split; auto.
Qed.

(** ** The calendar *)


Lemma valid_date_wf d : valid_date d -> wf_date d.
Proof. unfold valid_date, wf_date. tauto. Qed.


Lemma days_before_year_succ y :
  _days_before_year (y + 1) = _days_before_year y + year_length y.
Proof.
  unfold _days_before_year, year_length, _is_leap.
  replace (y + 1 - 1) with y by lia.
  destruct (Z.eqb_spec (y mod 4) 0), (Z.eqb_spec (y mod 100) 0),
           (Z.eqb_spec (y mod 400) 0); cbn [andb orb negb]; Z.div_mod_to_equations; lia.
Qed.

Lemma days_before_year_mono a b : a <= b -> _days_before_year a <= _days_before_year b.
Proof. unfold _days_before_year. intros Hab. Z.div_mod_to_equations. lia. Qed.

Ltac calendar_tables :=
  repeat match goal with
         | |- context [Z.pos ?a + 1] =>
             let v := eval cbv in (Z.pos a + 1) in change (Z.pos a + 1) with v
         end;
  cbv beta iota delta [_days_in_month _days_before_month year_length
                       Z.eqb Z.ltb Z.compare Pos.compare Pos.compare_cont Pos.eqb
                       orb andb] in *.

Ltac month_cases m Hm :=
  assert (m = 1 \/ m = 2 \/ m = 3 \/ m = 4 \/ m = 5 \/ m = 6 \/
          m = 7 \/ m = 8 \/ m = 9 \/ m = 10 \/ m = 11 \/ m = 12) as Hm by lia;
  repeat (destruct Hm as [Hm|Hm]); subst m.

Lemma day_of_year_bounds d :
  wf_date d ->
  1 <= _days_before_month (year d) (month d) + day d <= year_length (year d).
Proof.
  destruct d as [y m dd]. unfold wf_date, year_length. cbn [year month day]. intros [Hm Hd].
  month_cases m Hm'; calendar_tables;
    destruct (_is_leap y); lia.
Qed.

Lemma toordinal_next_day d :
  wf_date d -> toordinal (next_day d) = toordinal d + 1.
Proof.
  destruct d as [y m dd]. unfold wf_date, next_day, toordinal. cbn [year month day]. intros [Hm Hd].
  destruct (Z.ltb_spec dd (_days_in_month y m)); cbn [year month day]; [lia|].
  destruct (Z.ltb_spec m 12); cbn [year month day].
  - month_cases m Hm'; calendar_tables;
      destruct (_is_leap y); lia.
  - assert (m = 12) by lia. subst m. rewrite days_before_year_succ.
    calendar_tables. destruct (_is_leap y); lia.
Qed.

Lemma wf_next_day d : wf_date d -> wf_date (next_day d).
Proof.
  destruct d as [y m dd]. unfold wf_date, next_day. cbn [year month day]. intros [Hm Hd].
  destruct (Z.ltb_spec dd (_days_in_month y m)); cbn [year month day]; [lia|].
  destruct (Z.ltb_spec m 12); cbn [year month day].
  - split; [lia|]. month_cases m Hm'; calendar_tables; destruct (_is_leap y); lia.
  - calendar_tables. lia.
Qed.

(** Two dates of the calendar with the same ordinal are the same date. *)
Lemma toordinal_inj a b :
  wf_date a -> wf_date b -> toordinal a = toordinal b -> a = b.
Proof.
  intros Ha Hb E.
  pose proof (day_of_year_bounds Ha) as Ba.
  pose proof (day_of_year_bounds Hb) as Bb.
  unfold toordinal in E.
  assert (Ey : year a = year b).
  { destruct (Z.lt_trichotomy (year a) (year b)) as [Hlt|[Heq|Hgt]]; [|assumption|].
    - pose proof (days_before_year_succ (year a)).
      pose proof (@days_before_year_mono (year a + 1) (year b)). lia.
    - pose proof (days_before_year_succ (year b)).
      pose proof (@days_before_year_mono (year b + 1) (year a)). lia. }
  destruct a as [y m dd], b as [y' m' dd']. cbn [year month day] in *. subst y'.
  destruct Ha as [Hm Hd], Hb as [Hm' Hd']. cbn [year month day] in *.
  assert (Em : m = m').
  { month_cases m Hc; month_cases m' Hc';
      calendar_tables;
      destruct (_is_leap y); lia. }
  subst m'. f_equal. lia.
Qed.

Lemma days_from_length d n : List.length (days_from d n) = n.
Proof. revert d. induction n; intros d; simpl; auto. Qed.

(** The [k]-th day of [days_from d n] is a date of the calendar, [k] days
    after [d]. *)
Lemma days_from_nth d n k d' :
  wf_date d -> nth_error (days_from d n) k = Some d' ->
  wf_date d' /\ toordinal d' = toordinal d + Z.of_nat k.
Proof.
  revert d k. induction n as [|n IH]; intros d k Hd; simpl.
  - destruct k; discriminate.
  - destruct k as [|k]; simpl.
    + intros [= <-]. split; [assumption|lia].
    + intros Hk. apply IH in Hk as [Hwf Hord]; [|now apply wf_next_day].
      split; [assumption|]. rewrite Hord, toordinal_next_day by assumption. lia.
Qed.

Lemma date_range_length start_date end_date :
  List.length (date_range start_date end_date) =
  Z.to_nat (toordinal end_date - toordinal start_date + 1).
Proof. apply days_from_length. Qed.

(** The dates of [date_range] are the dates of the calendar from
    [start_date] to [end_date], both included. *)
Lemma date_range_In start_date end_date d :
  wf_date start_date -> wf_date d ->
  (In d (date_range start_date end_date) <->
   toordinal start_date <= toordinal d <= toordinal end_date).
Proof.
  intros Hs Hd. split.
  - intros Hin. apply In_nth_error in Hin as [k Hk].
    pose proof (proj1 (nth_error_Some _ k) ltac:(rewrite Hk; discriminate)) as Hlt.
    rewrite date_range_length in Hlt.
    apply days_from_nth in Hk as [_ Hord]; [|assumption]. lia.
  - intros Hord.
    set (k := Z.to_nat (toordinal d - toordinal start_date)).
    assert (Hlt : (k < List.length (date_range start_date end_date))%nat).
    { rewrite date_range_length. unfold k. lia. }
    destruct (nth_error (date_range start_date end_date) k) as [d'|] eqn:Hk;
      [|apply nth_error_None in Hk; lia].
    pose proof (nth_error_In _ _ Hk) as Hin.
    apply days_from_nth in Hk as [Hwf Hord']; [|assumption].
    replace d with d'; [assumption|].
    apply toordinal_inj; auto. unfold k in Hord'. lia.
Qed.

(** No date occurs twice in [date_range]. *)
Lemma date_range_NoDup start_date end_date :
  wf_date start_date -> NoDup (date_range start_date end_date).
Proof.
  intros Hs. apply NoDup_nth_error. intros i j Hi Hij.
  destruct (nth_error (date_range start_date end_date) i) as [d|] eqn:Ei;
    [|apply nth_error_None in Ei; lia].
  symmetry in Hij.
  apply days_from_nth in Ei as [_ Ei]; [|assumption].
  apply days_from_nth in Hij as [_ Ej]; [|assumption].
  lia.
Qed.

(** ** The trade planner *)

Section PlannerFacts.
Context {num : Type} `{PyNum num}.

Lemma sell_is_not_buy (t : Trade.t num) :
  Rebalancer.is_sell t = true -> Rebalancer.is_buy t = true -> False.
Proof.
  unfold Rebalancer.is_sell, Rebalancer.is_buy.
  intros Hs Hb. apply String.eqb_eq in Hs, Hb. rewrite Hs in Hb. discriminate.
Qed.

(** In a list made of elements that are not buys followed by elements that
    are not sells, every sell comes before every buy. *)
Lemma sells_then_buys (sells buys : list (Trade.t num)) :
  Forall (fun t => Rebalancer.is_sell t = true) sells ->
  Forall (fun t => Rebalancer.is_buy t = true) buys ->
  forall i j s b,
    nth_error (sells ++ buys) i = Some s ->
    nth_error (sells ++ buys) j = Some b ->
    Rebalancer.is_sell s = true -> Rebalancer.is_buy b = true ->
    (i < j)%nat.
Proof.
  intros Hsells Hbuys i j s b Hi Hj Hs Hb.
  rewrite Forall_forall in Hsells, Hbuys.
  assert (Hi' : (i < List.length sells)%nat).
  { destruct (Nat.lt_ge_cases i (List.length sells)) as [|Hge]; [assumption|].
    rewrite nth_error_app2 in Hi by assumption.
    apply nth_error_In, Hbuys in Hi. destruct (sell_is_not_buy _ Hs Hi). }
  assert (Hj' : (List.length sells <= j)%nat).
  { destruct (Nat.lt_ge_cases j (List.length sells)) as [Hlt|]; [|assumption].
    rewrite nth_error_app1 in Hj by assumption.
    apply nth_error_In, Hsells in Hj. destruct (sell_is_not_buy _ Hj Hb). }
  lia.
Qed.

(** C8.  When [calculate_trades] returns, every trade of the returned
    sequence whose side is ["sell"] stands before every trade whose side is
    ["buy"]. *)
Theorem calculate_trades_sells_before_buys (epsilon : num)
        (current_portfolio : Portfolio.t num) (target_weights prices : Dict.t num)
        (trade_date : date) (trades : list (Trade.t num)) :
  Rebalancer.calculate_trades epsilon current_portfolio target_weights prices trade_date
    = Ok trades ->
  forall i j s b,
    nth_error trades i = Some s -> nth_error trades j = Some b ->
    Trade.side s = "sell" -> Trade.side b = "buy" ->
    (i < j)%nat.
Proof.
  unfold Rebalancer.calculate_trades.
  destruct (nleb _ nzero); [discriminate|].
  destruct (Rebalancer.plan_all _ _) as [planned|e]; [|discriminate].
  intros [= <-] i j s b Hi Hj Hs Hb.
  apply (@sells_then_buys (filter Rebalancer.is_sell planned)
                          (filter Rebalancer.is_buy planned)) with (s := s) (b := b).
  - apply Forall_forall. intros t Ht. now apply filter_In in Ht.
  - apply Forall_forall. intros t Ht. now apply filter_In in Ht.
  - exact Hi.
  - exact Hj.
  - unfold Rebalancer.is_sell. now rewrite Hs.
  - unfold Rebalancer.is_buy. now rewrite Hb.
Qed.
End PlannerFacts.

(** ** The simulation loop *)

Section RunFacts.
Context {num : Type} `{PyNum num}.
Variable calculate_trades :
  Portfolio.t num -> Dict.t num -> Dict.t num -> date -> outcome (list (Trade.t num)).
Variable get_holdings_value :
  Portfolio.t num -> Dict.t num -> outcome (Dict.t num).
Variable prices : list (PriceRow.t num).
Variable target_weights : Dict.t num.
Variable config : BacktestConfig.t num.

Local Abbreviation run_date :=
  (Backtester.run_date calculate_trades get_holdings_value prices target_weights config).
Local Abbreviation run_loop :=
  (Backtester.run_loop calculate_trades get_holdings_value prices target_weights config).

(** The record built for a date, when the call of [get_holdings_value]
    returns: the date, the total value, the cash and the sum of the values
    the call returned. *)
Local Abbreviation record_of ledger d holdings :=
  (EquityRecord.mk d
     (Portfolio.get_total_value ledger (Some (Backtester.prices_on prices d)))
     (Portfolio.cash ledger)
     (Portfolio.pysum (Dict.values holdings))).

(** A date that is processed without an exception appends one record to
    the equity curve, computed from the ledger as the date leaves it. *)
Lemma run_date_equity st date st' :
  run_date st date = Ok st' ->
  exists holdings,
    get_holdings_value (Backtester.current_portfolio st')
                       (Backtester.prices_on prices date) = Ok holdings /\
    Backtester.equity_records st' =
    Backtester.equity_records st ++
    [record_of (Backtester.current_portfolio st') date holdings].
Proof.
  unfold Backtester.run_date, Backtester.equity_record.
  destruct (Backtester._should_rebalance _ _ _) as [[|]|e]; cbv beta iota zeta;
    [| |discriminate].
  - destruct (calculate_trades _ _ _ _) as [trades|e]; cbv beta iota; [|discriminate].
    destruct (Backtester.execute_trades _ _ _) as [[p trs]|e]; cbv beta iota;
      [|discriminate].
    destruct (get_holdings_value p _) as [holdings|e] eqn:Eh; [|discriminate].
    intros [= <-]. exists holdings. split; [exact Eh|reflexivity].
  - destruct (get_holdings_value _ _) as [holdings|e] eqn:Eh; [|discriminate].
    intros [= <-]. exists holdings. split; [exact Eh|reflexivity].
Qed.

Lemma run_loop_equity dates st st' :
  run_loop dates st = Ok st' ->
  exists recs,
    Backtester.equity_records st' = Backtester.equity_records st ++ recs /\
    map (@EquityRecord.date num) recs = dates.
Proof.
  revert st. induction dates as [|date dates IH]; intros st; simpl.
  - intros [= <-]. exists []. now rewrite app_nil_r.
  - destruct (run_date st date) as [st1|e] eqn:E1; [|discriminate].
    intros Hrest. apply IH in Hrest as (recs & Heq & Hdates).
    apply run_date_equity in E1 as (holdings & _ & E1).
    rewrite E1, <- app_assoc in Heq.
    eexists. split; [exact Heq|]. simpl. now rewrite Hdates.
Qed.

(** The record of the [k]-th date is computed from the ledger as it stands
    once the dates up to and including the [k]-th have been processed. *)
Lemma run_loop_record dates st st' k date :
  run_loop dates st = Ok st' ->
  nth_error dates k = Some date ->
  exists stk holdings,
    run_loop (firstn (S k) dates) st = Ok stk /\
    get_holdings_value (Backtester.current_portfolio stk)
                       (Backtester.prices_on prices date) = Ok holdings /\
    nth_error (Backtester.equity_records st')
              (List.length (Backtester.equity_records st) + k) =
    Some (record_of (Backtester.current_portfolio stk) date holdings).
Proof.
  revert st k. induction dates as [|d0 dates IH]; intros st k; simpl.
  - intros _ Hk. destruct k; discriminate.
  - destruct (run_date st d0) as [st1|e] eqn:E1; [|discriminate].
    intros Hrest Hk.
    destruct (run_date_equity _ _ E1) as (holdings & Hh & Hst1).
    destruct k as [|k]; simpl in Hk.
    + injection Hk as <-. exists st1, holdings. split; [reflexivity|].
      split; [exact Hh|].
      apply run_loop_equity in Hrest as (recs & Heq & _).
      rewrite Heq, Hst1, <- app_assoc, Nat.add_0_r.
      rewrite nth_error_app2 by lia. now rewrite Nat.sub_diag.
    + destruct (IH _ _ Hrest Hk) as (stk & hk & Hrun & Hhk & Hnth).
      exists stk, hk. split; [exact Hrun|]. split; [exact Hhk|].
      rewrite Hst1, length_app in Hnth. simpl in Hnth.
      now replace (List.length (Backtester.equity_records st) + S k)%nat
        with (List.length (Backtester.equity_records st) + 1 + k)%nat by lia.
Qed.

(** C9.  When [run] returns, the dates of the equity curve are the dates of
    [date_range start_date end_date], in that order: the calendar dates from
    the start date to the end date, both included, the [k]-th being [k] days
    after the start date, whether or not the price table has rows for them,
    and no date occurring twice.  The record of each date holds the date,
    the total value of the ledger under the prices of that date, the cash of
    the ledger and the sum of the holdings values under those prices, the
    ledger being the one the loop has reached when it has processed that
    date and the holdings values being what the call of
    [get_holdings_value] on that ledger returned. *)
Theorem run_equity_curve (result : BacktestResult.t num) :
  valid_date (BacktestConfig.start_date config) ->
  valid_date (BacktestConfig.end_date config) ->
  Backtester.run calculate_trades get_holdings_value prices target_weights config
    = Ok result ->
  let start_date := BacktestConfig.start_date config in
  let end_date := BacktestConfig.end_date config in
  let dates := date_range start_date end_date in
  map (@EquityRecord.date num) (BacktestResult.equity_curve result) = dates /\
  List.length (BacktestResult.equity_curve result) =
    Z.to_nat (toordinal end_date - toordinal start_date + 1) /\
  (forall d, wf_date d ->
     (In d dates <-> toordinal start_date <= toordinal d <= toordinal end_date)) /\
  NoDup dates /\
  (forall k d, nth_error dates k = Some d ->
     toordinal d = toordinal start_date + Z.of_nat k) /\
  (forall k d, nth_error dates k = Some d ->
     exists st holdings,
       run_loop (firstn (S k) dates) (Backtester.initial_state config) = Ok st /\
       let ledger := Backtester.current_portfolio st in
       let prices_dict := Backtester.prices_on prices d in
       get_holdings_value ledger prices_dict = Ok holdings /\
       nth_error (BacktestResult.equity_curve result) k =
       Some (EquityRecord.mk d
               (Portfolio.get_total_value ledger (Some prices_dict))
               (Portfolio.cash ledger)
               (Portfolio.pysum (Dict.values holdings)))).
Proof.
  intros Hstart Hend Hrun start_date end_date dates.
  apply valid_date_wf in Hstart, Hend.
  unfold Backtester.run in Hrun. fold start_date end_date dates in Hrun.
  destruct (run_loop dates (Backtester.initial_state config)) as [st|e] eqn:Eloop;
    [|discriminate].
  injection Hrun as <-. cbn [BacktestResult.equity_curve].
  pose proof (run_loop_equity _ _ Eloop) as (recs & Heq & Hdates).
  cbn in Heq. split; [now rewrite Heq|].
  split.
  { rewrite <- (length_map (@EquityRecord.date num)), Heq, Hdates.
    apply date_range_length. }
  split; [intros d Hd; now apply date_range_In|].
  split; [now apply date_range_NoDup|].
  split.
  { intros k d Hk. now apply days_from_nth in Hk as [_ Hord]. }
  intros k d Hk.
  destruct (run_loop_record _ _ _ Eloop Hk) as (stk & holdings & Hstk & Hh & Hnth).
  exists stk, holdings. split; [exact Hstk|]. split; [exact Hh|exact Hnth].
Qed.
End RunFacts.

Section RunInstances.
Import Examples.
Local Open Scope float_scope.

(** The theorem of C8 at the swap of the tests: the planner returns the
    sale of the 50 AAPL shares, then the purchase of 200 MSFT shares. *)
Lemma calculate_trades_sells_before_buys_witness :
  Rebalancer.calculate_trades epsilon portfolio_with_aapl swap_weights swap_prices
                              d_2020_01_02 = Ok [swap_sell; swap_buy] /\
  (0 < 1)%nat.
Proof.
  assert (Hplan : Rebalancer.calculate_trades epsilon portfolio_with_aapl swap_weights
                    swap_prices d_2020_01_02 = Ok [swap_sell; swap_buy])
    by (vm_compute; reflexivity).
  split; [exact Hplan|].
  apply (@calculate_trades_sells_before_buys float float_num epsilon portfolio_with_aapl
           swap_weights swap_prices d_2020_01_02 [swap_sell; swap_buy] Hplan
           0%nat 1%nat swap_sell swap_buy); reflexivity.
Defined.

Lemma valid_2020_01_01 : valid_date d_2020_01_01.
Proof. repeat split; vm_compute; discriminate. Qed.

Lemma valid_2020_01_02 : valid_date d_2020_01_02.
Proof. repeat split; vm_compute; discriminate. Qed.

(** The theorem of C9 at the end-to-end scenario of the specification, run
    with the planner modelled above and with the holdings values of the
    specification as the answer of [get_holdings_value]: two dates, two
    records. *)
Lemma run_equity_curve_witness :
  Backtester.run (Rebalancer.calculate_trades epsilon) holdings_value_spec
                 two_day_prices two_day_weights two_day_config = Ok two_day_result /\
  map (@EquityRecord.date float) (BacktestResult.equity_curve two_day_result) =
    date_range d_2020_01_01 d_2020_01_02 /\
  List.length (BacktestResult.equity_curve two_day_result) = 2%nat.
Proof.
  assert (Hrun : Backtester.run (Rebalancer.calculate_trades epsilon)
                   holdings_value_spec two_day_prices
                   two_day_weights two_day_config = Ok two_day_result)
    by (vm_compute; reflexivity).
  split; [exact Hrun|].
  destruct (@run_equity_curve float float_num (Rebalancer.calculate_trades epsilon)
              holdings_value_spec
              two_day_prices two_day_weights two_day_config two_day_result
              valid_2020_01_01 valid_2020_01_02 Hrun) as (Hdates & Hlen & _).
  split; [exact Hdates|exact Hlen].
Defined.
End RunInstances.

(** With the weekly frequency, [run] over a range that is not empty raises
    [TypeError] on its first date. *)
Lemma run_weekly_raises {num : Type} `{PyNum num}
      (calculate_trades : Portfolio.t num -> Dict.t num -> Dict.t num -> date ->
                          outcome (list (Trade.t num)))
      (get_holdings_value : Portfolio.t num -> Dict.t num -> outcome (Dict.t num))
      (prices : list (PriceRow.t num)) (target_weights : Dict.t num)
      (config : BacktestConfig.t num) :
  BacktestConfig.rebalance_frequency config = "weekly" ->
  date_range (BacktestConfig.start_date config) (BacktestConfig.end_date config) <> [] ->
  Backtester.run calculate_trades get_holdings_value prices target_weights config
    = Raise TypeError.
Proof.
  intros Hfreq Hdates. unfold Backtester.run.
  destruct (date_range _ _) as [|d0 dates]; [congruence|].
  cbn [Backtester.run_loop]. unfold Backtester.run_date.
  rewrite Hfreq. reflexivity.
Qed.

(* ================================================================= *)
(** * Further properties of the ledger *)

Section DictMore.
Variable V : Type.
Implicit Types (d : Dict.t V) (k : string) (v : V).

Lemma dict_get_del_other d k k' :
  k <> k' -> Dict.get k' (Dict.del k d) = Dict.get k' d.
Proof.
  intros Hne. induction d as [|[k0 v0] d IH]; simpl; [reflexivity|].
  destruct (String.eqb_spec k k0) as [->|Hk]; simpl.
  - destruct (String.eqb_spec k' k0); congruence.
  - destruct (String.eqb_spec k' k0); auto.
Qed.

Lemma dict_del_set_absent d k v :
  Dict.get k d = None -> Dict.del k (Dict.set k v d) = d.
Proof.
  induction d as [|[k0 v0] d IH]; simpl.
  - now rewrite String.eqb_refl.
  - destruct (String.eqb_spec k k0) as [->|Hk]; [discriminate|].
    intros E. simpl. destruct (String.eqb_spec k k0); [congruence|].
    now rewrite IH.
Qed.
End DictMore.

Section LedgerMore.
Context {num : Type} `{PyNum num}.
Implicit Types (t : string) (s price : num) (d : date).

(** A [buy] that raises has not touched the positions. *)
Lemma buy_raise_positions (p p' : Portfolio.t num) t s price d e :
  Portfolio.buy p t s price d = (p', Raise e) ->
  Portfolio.positions p' = Portfolio.positions p.
Proof.
  unfold Portfolio.buy.
  destruct (ngtb (nmul s price) (Portfolio.cash p)); [now intros [= <-]|].
  cbn [Portfolio.positions Portfolio.cash].
  destruct (Dict.get t (Portfolio.positions p)) as [existing|]; [|discriminate].
  destruct (pydiv _ _); [discriminate|]. now intros [= <-].
Qed.

(** X1.  [sell] checks the share count first, then the holding, then the
    number of shares held: it returns normally exactly when the count is
    not [<= 0], the ticker is held and the count is not greater than the
    shares held; otherwise it raises [InvalidOrder], [NoPosition] or
    [InsufficientShares], in that order of precedence, and whatever it
    raises it leaves the ledger exactly as it was. *)
Theorem sell_error_surface (p : Portfolio.t num) t s price d :
  let r := Portfolio.sell p t s price d in
  (snd r = Ok tt <->
   nleb s nzero = false /\
   exists held, Dict.get t (Portfolio.positions p) = Some held /\
                ngtb s (Position.shares held) = false) /\
  (snd r = Raise InvalidOrder <-> nleb s nzero = true) /\
  (snd r = Raise NoPosition <->
   nleb s nzero = false /\ Dict.get t (Portfolio.positions p) = None) /\
  (snd r = Raise InsufficientShares <->
   nleb s nzero = false /\
   exists held, Dict.get t (Portfolio.positions p) = Some held /\
                ngtb s (Position.shares held) = true) /\
  (forall e, snd r = Raise e ->
     fst r = p /\ (e = InvalidOrder \/ e = NoPosition \/ e = InsufficientShares)).
Proof.
  cbv zeta. unfold Portfolio.sell.
  destruct (nleb s nzero) eqn:Es; cbn [fst snd].
  { split; [|split; [|split; [|split]]].
    - split; [discriminate|]. intros [Hf _]; discriminate.
    - split; auto.
    - split; [discriminate|]. intros [Hf _]; discriminate.
    - split; [discriminate|]. intros [Hf _]; discriminate.
    - intros e He. injection He as <-. auto. }
  destruct (Dict.get t (Portfolio.positions p)) as [held|] eqn:Eg; cbn [fst snd].
  2:{ split; [|split; [|split; [|split]]].
      - split; [discriminate|]. intros (_ & held & Hh & _); discriminate.
      - split; discriminate.
      - split; auto.
      - split; [discriminate|]. intros (_ & held & Hh & _); discriminate.
      - intros e He. injection He as <-. auto. }
  destruct (ngtb s (Position.shares held)) eqn:Egt; cbn [fst snd].
  { split; [|split; [|split; [|split]]].
    - split; [discriminate|].
      intros (_ & held' & Hh & Hle). injection Hh as <-. congruence.
    - split; discriminate.
    - split; [discriminate|]. intros [_ Hn]; discriminate.
    - split; eauto.
    - intros e He. injection He as <-. auto. }
  assert (Hcases :
            forall o : outcome unit, o = Ok tt ->
            (o = Ok tt <->
             false = false /\
             exists held0, Some held = Some held0 /\
                           ngtb s (Position.shares held0) = false) /\
            (o = Raise InvalidOrder <-> false = true) /\
            (o = Raise NoPosition <-> false = false /\ Some held = None) /\
            (o = Raise InsufficientShares <->
             false = false /\
             exists held0, Some held = Some held0 /\
                           ngtb s (Position.shares held0) = true) /\
            (forall e, o = Raise e ->
               e = InvalidOrder \/ e = NoPosition \/ e = InsufficientShares)).
  { intros o ->. split; [|split; [|split; [|split]]].
    - split; eauto.
    - split; discriminate.
    - split; [discriminate|]. intros [_ Hn]; discriminate.
    - split; [discriminate|].
      intros (_ & held' & Hh & Hgt). injection Hh as <-. congruence.
    - discriminate. }
  destruct (neqb s (Position.shares held)); cbn [fst snd];
    destruct (Hcases (Ok tt) eq_refl) as (H1 & H2 & H3 & H4 & H5);
    (split; [exact H1|split; [exact H2|split; [exact H3|split; [exact H4|]]]]);
    discriminate.
Qed.

(** X2.  A successful sell of exactly the shares held deletes the
    position: the ticker is held no more, and every other ticker is held
    as before. *)
Theorem sell_all_removes_position (p p' : Portfolio.t num) t s price d held :
  Dict.wf (Portfolio.positions p) ->
  Dict.get t (Portfolio.positions p) = Some held ->
  neqb s (Position.shares held) = true ->
  Portfolio.sell p t s price d = (p', Ok tt) ->
  Dict.get t (Portfolio.positions p') = None /\
  (forall t', t' <> t ->
     Dict.get t' (Portfolio.positions p') = Dict.get t' (Portfolio.positions p)) /\
  Dict.wf (Portfolio.positions p').
Proof.
  intros Hwf Eget Hall Hsell.
  apply sell_ok_inv in Hsell as (_ & held' & Eget' & _ & _ & Hpos).
  rewrite Eget in Eget'. injection Eget' as <-. rewrite Hall in Hpos. rewrite Hpos.
  split; [now apply dict_get_del_same|].
  split; [|now apply dict_wf_del].
  intros t' Hne. apply dict_get_del_other. congruence.
Qed.

(** X3.  [buy] and [sell] touch no position but that of their ticker:
    whether they return or raise, every other ticker is held afterwards
    exactly as before. *)
Theorem other_positions_untouched (p : Portfolio.t num) t t' s price d :
  t' <> t ->
  Dict.get t' (Portfolio.positions (fst (Portfolio.buy p t s price d))) =
    Dict.get t' (Portfolio.positions p) /\
  Dict.get t' (Portfolio.positions (fst (Portfolio.sell p t s price d))) =
    Dict.get t' (Portfolio.positions p).
Proof.
  intros Hne. assert (Hne' : t <> t') by congruence. split.
  - destruct (Portfolio.buy p t s price d) as [p' [[]|e]] eqn:E; cbn [fst].
    + apply buy_ok_inv in E as (_ & _ & Hpos).
      destruct (Dict.get t (Portfolio.positions p)) as [existing|].
      * cbv zeta in Hpos. destruct Hpos as [_ ->]. now apply dict_get_set_other.
      * rewrite Hpos. now apply dict_get_set_other.
    + now rewrite (buy_raise_positions _ _ _ _ _ E).
  - destruct (Portfolio.sell p t s price d) as [p' [[]|e]] eqn:E; cbn [fst].
    + apply sell_ok_inv in E as (_ & held & _ & _ & _ & Hpos). rewrite Hpos.
      destruct (neqb s (Position.shares held)).
      * now apply dict_get_del_other.
      * now apply dict_get_set_other.
    + now apply sell_raise_inv in E as ->.
Qed.

(** X4.  Cash conservation: when every operation of a sequence succeeds,
    the final cash is the initial cash with the cost of each buy taken off
    and the proceeds of each sell added, in the order of the operations. *)
Theorem cash_after_operations (p p' : Portfolio.t num) (ops : list (ledger_op num)) :
  apply_ops p ops = (p', Ok tt) ->
  Portfolio.cash p' = fold_left cash_flow ops (Portfolio.cash p).
Proof.
  revert p. induction ops as [|o ops IH]; intros p; simpl.
  - now intros [= <-].
  - destruct (apply_op p o) as [p1 [[]|e]] eqn:E; [|discriminate].
    intros Hrest. rewrite (IH _ Hrest). f_equal.
    destruct o as [t s pr d|t s pr d]; simpl in E |- *.
    + now apply buy_ok_inv in E as (_ & -> & _).
    + now apply sell_ok_inv in E as (_ & held & _ & _ & -> & _).
Qed.

(** X5.  A buy that brings the shares of a position to zero is not a sale:
    after a first buy of [s1] shares on a ticker that was not held, a buy
    of [s2] shares with [s1 + s2 == 0] whose cost is not greater than the
    cash raises [ZeroDivisionError]; the cash has been reduced by the cost
    all the same, and the position is still the one of the first buy. *)
Theorem buy_to_zero_raises_after_paying (p pA : Portfolio.t num) t
        (s1 p1 s2 p2 : num) (dA dB : date) :
  Dict.get t (Portfolio.positions p) = None ->
  Portfolio.buy p t s1 p1 dA = (pA, Ok tt) ->
  ngtb (nmul s2 p2) (Portfolio.cash pA) = false ->
  neqb (nadd s1 s2) nzero = true ->
  Portfolio.buy pA t s2 p2 dB =
    (Portfolio.mk (nsub (nsub (Portfolio.cash p) (nmul s1 p1)) (nmul s2 p2))
                  (Portfolio.positions pA),
     Raise ZeroDivisionError) /\
  Dict.get t (Portfolio.positions pA) = Some (Position.mk t s1 p1 dA).
Proof.
  intros Hnew HbuyA Hcash Hzero.
  pose proof (buy_new_position _ _ _ _ _ Hnew HbuyA) as HposA.
  apply buy_ok_inv in HbuyA as (_ & HcA & _).
  split; [|exact HposA].
  unfold Portfolio.buy. rewrite Hcash. cbn [Portfolio.positions Portfolio.cash].
  rewrite HposA. cbn [Position.shares Position.entry_price].
  unfold pydiv. rewrite Hzero, HcA. reflexivity.
Qed.

(** X6.  Round trip: on a ticker that is not held, a successful buy of [s]
    shares followed by a sell of the same [s] shares (with [s == s], [s]
    not [<= 0] and [s] not greater than itself, as for every positive
    number) succeeds and leaves the positions exactly as they were before
    the buy, with the cash less the cost plus the proceeds. *)
Theorem buy_then_sell_restores_positions (p pA : Portfolio.t num) t
        (s p1 p2 : num) (dA dB : date) :
  Dict.get t (Portfolio.positions p) = None ->
  Portfolio.buy p t s p1 dA = (pA, Ok tt) ->
  nleb s nzero = false -> nltb s s = false -> neqb s s = true ->
  Portfolio.sell pA t s p2 dB =
    (Portfolio.mk (nadd (nsub (Portfolio.cash p) (nmul s p1)) (nmul s p2))
                  (Portfolio.positions p),
     Ok tt).
Proof.
  intros Hnew HbuyA Hpos Hle Heq.
  pose proof (buy_new_position _ _ _ _ _ Hnew HbuyA) as HposA.
  apply buy_ok_inv in HbuyA as (_ & HcA & HpA). rewrite Hnew in HpA.
  unfold Portfolio.sell. rewrite Hpos, HposA. cbn [Position.shares].
  unfold ngtb. rewrite Hle, Heq. cbn [Portfolio.positions Portfolio.cash].
  rewrite HcA, HpA, dict_del_set_absent by assumption. reflexivity.
Qed.

(** [buy] and [sell] keep every position filed under its own ticker. *)
Lemma keys_consistent_step (p p' : Portfolio.t num) (o : ledger_op num)
      (r : outcome unit) :
  keys_consistent p -> apply_op p o = (p', r) -> keys_consistent p'.
Proof.
  intros Hk E. destruct o as [t s pr d|t s pr d]; simpl in E; destruct r as [[]|e].
  - apply buy_ok_inv in E as (_ & _ & Hpos). intros k pos Hin.
    destruct (Dict.get t (Portfolio.positions p)) as [existing|].
    + cbv zeta in Hpos. destruct Hpos as [_ Hpos]. rewrite Hpos in Hin.
      apply dict_In_set in Hin as [[= -> ->]|Hin]; [reflexivity|eauto].
    + rewrite Hpos in Hin.
      apply dict_In_set in Hin as [[= -> ->]|Hin]; [reflexivity|eauto].
  - apply buy_raise_positions in E. intros k pos Hin. rewrite E in Hin. eauto.
  - apply sell_ok_inv in E as (_ & held & Eget & _ & _ & Hpos). intros k pos Hin.
    rewrite Hpos in Hin. destruct (neqb s (Position.shares held)).
    + apply dict_In_del in Hin. eauto.
    + apply dict_In_set in Hin as [[= -> ->]|Hin]; [|eauto]. cbn.
      apply dict_get_In in Eget. eauto.
  - now apply sell_raise_inv in E as ->.
Qed.
End LedgerMore.

Section LedgerMore2.
Context {num : Type} `{PyNum num}.

(** X7.  Whatever buys and sells are issued on a fresh ledger, with
    whatever arguments and whether they return or raise, the positions
    never hold a ticker twice and every position is filed under the ticker
    it names. *)
Theorem positions_well_filed (initial_cash : num) (ops : list (ledger_op num)) :
  Forall (fun p => Dict.wf (Portfolio.positions p) /\ keys_consistent p)
         (ledgers_after (Portfolio.init initial_cash) ops).
Proof.
  assert (Hinit : Dict.wf (Portfolio.positions (Portfolio.init initial_cash)) /\
                  keys_consistent (Portfolio.init initial_cash)).
  { split; [constructor|intros k pos []]. }
  revert Hinit. generalize (Portfolio.init initial_cash) as p.
  induction ops as [|o ops IH]; intros p [Hwf Hk]; simpl; [constructor|].
  destruct (apply_op p o) as [p' r] eqn:E. cbn [fst].
  assert (Hp' : Dict.wf (Portfolio.positions p') /\ keys_consistent p').
  { split; [|eapply keys_consistent_step; eauto].
    destruct o as [t s pr d|t s pr d]; simpl in E; destruct r as [[]|e].
    - apply buy_ok_inv in E as (_ & _ & Hpos).
      destruct (Dict.get t (Portfolio.positions p)) as [existing|].
      + cbv zeta in Hpos. destruct Hpos as [_ ->]. now apply dict_wf_set.
      + rewrite Hpos. now apply dict_wf_set.
    - now rewrite (buy_raise_positions _ _ _ _ _ E).
    - apply sell_ok_inv in E as (_ & held & _ & _ & _ & ->).
      destruct (neqb s (Position.shares held));
        [now apply dict_wf_del|now apply dict_wf_set].
    - now apply sell_raise_inv in E as ->. }
  constructor; [exact Hp'|now apply IH].
Qed.

(** X8.  The valuation reads the price map only at the tickers of the
    positions held: two price maps that agree on those give the same total
    value, whatever other tickers they price. *)
Theorem total_value_reads_held_tickers_only (p : Portfolio.t num)
        (prices1 prices2 : Dict.t num) :
  (forall pos, In pos (Dict.values (Portfolio.positions p)) ->
               Dict.get (Position.ticker pos) prices1 =
               Dict.get (Position.ticker pos) prices2) ->
  Portfolio.get_total_value p (Some prices1) =
  Portfolio.get_total_value p (Some prices2).
Proof.
  intros Hagree. unfold Portfolio.get_total_value. do 2 f_equal.
  apply map_ext_in. intros pos Hin. unfold Portfolio.get_or_zero.
  now rewrite (Hagree pos Hin).
Qed.
End LedgerMore2.



(* ================================================================= *)
(** * Further properties of the simulation loop *)

Section ExecuteTrades.
Context {num : Type} `{PyNum num}.

(** Executing one list of trades after another is executing their
    concatenation: the second list starts from the ledger and the log the
    first one left, and an exception in the first ends the whole. *)
Lemma execute_trades_app (l1 l2 : list (Trade.t num)) (p : Portfolio.t num)
      (trs : list (Trade.t num)) :
  Backtester.execute_trades (l1 ++ l2) p trs =
  match Backtester.execute_trades l1 p trs with
  | Ok (p1, trs1) => Backtester.execute_trades l2 p1 trs1
  | Raise e => Raise e
  end.
Proof.
  revert p trs. induction l1 as [|trade l1 IH]; intros p trs; simpl; [reflexivity|].
  destruct (if String.eqb (Trade.side trade) "sell" then _ else _) as [p' [[]|e]];
    [apply IH|reflexivity].
Qed.

(** X10.  The inner loop of [run] is the sequence of ledger operations of
    its trades: a trade whose side is ["sell"] is a [sell], one whose side
    is ["buy"] is a [buy], and a trade of any other side is no operation.
    When none of the operations raises, every trade of the list, those of
    other sides included, has been appended to the trade log, in order;
    when one raises, the loop raises the same exception. *)
Theorem execute_trades_as_operations (trades : list (Trade.t num))
        (p : Portfolio.t num) (trs : list (Trade.t num)) :
  Backtester.execute_trades trades p trs =
  match apply_ops p (flat_map (fun trade => match op_of_trade trade with
                                            | Some o => [o]
                                            | None => []
                                            end) trades) with
  | (p', Ok _) => Ok (p', trs ++ trades)
  | (_, Raise e) => Raise e
  end.
Proof.
  revert p trs. induction trades as [|trade trades IH]; intros p trs; simpl.
  - now rewrite app_nil_r.
  - unfold op_of_trade.
    destruct (String.eqb (Trade.side trade) "sell").
    + simpl. destruct (Portfolio.sell p _ _ _ _) as [p' [[]|e]]; [|reflexivity].
      rewrite IH, <- app_assoc. reflexivity.
    + destruct (String.eqb (Trade.side trade) "buy").
      * simpl. destruct (Portfolio.buy p _ _ _ _) as [p' [[]|e]]; [|reflexivity].
        rewrite IH, <- app_assoc. reflexivity.
      * simpl. rewrite IH, <- app_assoc. reflexivity.
Qed.

(** X11.  Trades whose side is neither ["sell"] nor ["buy"] are written to
    the trade log without being executed: the ledger is left as it was, and
    no exception is raised whatever their tickers, shares and prices. *)
Theorem other_sides_logged_not_executed (trades : list (Trade.t num))
        (p : Portfolio.t num) (trs : list (Trade.t num)) :
  Forall (fun trade => Trade.side trade <> "sell" /\ Trade.side trade <> "buy") trades ->
  Backtester.execute_trades trades p trs = Ok (p, trs ++ trades).
Proof.
  intros Hsides. revert trs.
  induction Hsides as [|trade trades [Hs Hb] _ IH]; intros trs; simpl.
  - now rewrite app_nil_r.
  - apply String.eqb_neq in Hs, Hb. rewrite Hs, Hb, IH, <- app_assoc. reflexivity.
Qed.

(** X12.  A trade that fails ends the loop at once: when the trades before
    it execute and it raises, the loop raises that exception, whatever
    trades come after it. *)
Theorem execute_trades_stops_at_failure (before after : list (Trade.t num))
        (trade : Trade.t num) (p p1 pf : Portfolio.t num)
        (trs trs1 : list (Trade.t num)) (o : ledger_op num) (e : exn) :
  Backtester.execute_trades before p trs = Ok (p1, trs1) ->
  op_of_trade trade = Some o ->
  apply_op p1 o = (pf, Raise e) ->
  Backtester.execute_trades (before ++ trade :: after) p trs = Raise e.
Proof.
  intros Hbefore Hop Hfail. rewrite execute_trades_app, Hbefore. simpl.
  unfold op_of_trade in Hop.
  destruct (String.eqb (Trade.side trade) "sell").
  - injection Hop as <-. simpl in Hfail. now rewrite Hfail.
  - destruct (String.eqb (Trade.side trade) "buy"); [|discriminate].
    injection Hop as <-. simpl in Hfail. now rewrite Hfail.
Qed.
End ExecuteTrades.

Section PricesOn.
Context {num : Type} `{PyNum num}.

Lemma prices_on_fold (rows : list (PriceRow.t num)) (date : date) (k : string)
      (acc : Dict.t num) :
  Dict.get k
    (fold_left (fun d row => Dict.set (PriceRow.ticker row) (PriceRow.close row) d)
               (filter (fun row => date_eqb (PriceRow.date row) date) rows) acc) =
  fold_left (fun o row =>
               if date_eqb (PriceRow.date row) date &&
                  String.eqb (PriceRow.ticker row) k
               then Some (PriceRow.close row) else o)
            rows (Dict.get k acc).
Proof.
  revert acc. induction rows as [|row rows IH]; intros acc; simpl; [reflexivity|].
  destruct (date_eqb (PriceRow.date row) date); simpl.
  - rewrite IH. f_equal.
    destruct (String.eqb_spec (PriceRow.ticker row) k) as [<-|Hne].
    + apply dict_get_set_same.
    + now apply dict_get_set_other.
  - apply IH.
Qed.

(** X13.  The price map of a date holds, for each ticker, the close of the
    last row of the table with that date and that ticker, and holds no
    price for a ticker without such a row: rows of other dates never enter
    it, and of two rows for one ticker the later one wins. *)
Theorem prices_on_last_row_wins (prices : list (PriceRow.t num)) (date : date)
        (k : string) :
  Dict.get k (Backtester.prices_on prices date) = last_close prices date k.
Proof. unfold Backtester.prices_on, last_close. apply prices_on_fold. Qed.

Lemma prices_on_no_rows (prices : list (PriceRow.t num)) (date : date) :
  Forall (fun row => date_eqb (PriceRow.date row) date = false) prices ->
  Backtester.prices_on prices date = [].
Proof.
  intros Hrows. unfold Backtester.prices_on.
  replace (filter _ prices) with (@nil (PriceRow.t num)); [reflexivity|].
  induction Hrows as [|row rows Hrow _ IH]; simpl; [reflexivity|].
  now rewrite Hrow.
Qed.

(** X14.  On a date for which the price table has no row, the value
    [run] computes for the portfolio is the cash alone, whenever the shares
    of every position held give [0.0] when multiplied by [0.0], [0.0 + 0.0]
    is [0.0] and the cash is unchanged by adding [0.0]: on binary64, for
    every finite non-negative number of shares and every cash other than
    [-0.0]. *)
Theorem total_value_without_rows (prices : list (PriceRow.t num))
        (date : date) (p : Portfolio.t num) :
  Forall (fun row => date_eqb (PriceRow.date row) date = false) prices ->
  (forall pos, In pos (Dict.values (Portfolio.positions p)) ->
               nmul (Position.shares pos) nzero = nzero) ->
  nadd nzero nzero = nzero ->
  nadd (Portfolio.cash p) nzero = Portfolio.cash p ->
  Portfolio.get_total_value p (Some (Backtester.prices_on prices date)) =
  Portfolio.cash p.
Proof.
  intros Hrows Hzero H00 Hcash. rewrite prices_on_no_rows by exact Hrows.
  unfold Portfolio.get_total_value, Portfolio.pysum.
  rewrite <- Hcash at 2. f_equal.
  revert Hzero. generalize (Dict.values (Portfolio.positions p)) as l.
  induction l as [|pos l IH]; intros Hzero; simpl; [reflexivity|].
  change (Portfolio.get_or_zero [] (Position.ticker pos)) with (nzero (num := num)).
  rewrite (Hzero pos (or_introl eq_refl)), H00.
  apply IH. intros pos' Hin. apply Hzero. now right.
Qed.
End PricesOn.

Section RunMore.
Context {num : Type} `{PyNum num}.
Variable calculate_trades :
  Portfolio.t num -> Dict.t num -> Dict.t num -> date -> outcome (list (Trade.t num)).
Variable get_holdings_value :
  Portfolio.t num -> Dict.t num -> outcome (Dict.t num).
Variable prices : list (PriceRow.t num).
Variable target_weights : Dict.t num.
Variable config : BacktestConfig.t num.

Local Abbreviation run_loop :=
  (Backtester.run_loop calculate_trades get_holdings_value prices target_weights config).
Local Abbreviation run :=
  (Backtester.run calculate_trades get_holdings_value prices target_weights config).
Local Abbreviation frequency := (BacktestConfig.rebalance_frequency config).

(** Over dates on which the rule says no, the loop changes neither the
    ledger nor the trade log nor the last rebalance date: it appends one
    record per date, and raises what the first failing record raises. *)
Lemma run_loop_no_rebalance (dates : list date) (st : Backtester.loop_state) :
  (forall d, In d dates ->
     Backtester._should_rebalance d (Backtester.last_rebalance_date st) frequency
     = Ok false) ->
  run_loop dates st =
  match records_of get_holdings_value prices (Backtester.current_portfolio st) dates with
  | Raise e => Raise e
  | Ok records =>
      Ok {| Backtester.current_portfolio := Backtester.current_portfolio st;
            Backtester.last_rebalance_date := Backtester.last_rebalance_date st;
            Backtester.equity_records := Backtester.equity_records st ++ records;
            Backtester.trade_records := Backtester.trade_records st |}
  end.
Proof.
  revert st. induction dates as [|d dates IH]; intros st Hno; simpl.
  - rewrite app_nil_r. now destruct st.
  - unfold Backtester.run_date. rewrite (Hno d (or_introl eq_refl)).
    cbv beta iota.
    destruct (Backtester.equity_record _ _ _ _) as [record|e]; [|reflexivity].
    rewrite IH.
    + cbn [Backtester.current_portfolio Backtester.last_rebalance_date
           Backtester.equity_records Backtester.trade_records].
      destruct (records_of _ _ _ _) as [records|e]; [|reflexivity].
      now rewrite <- app_assoc.
    + intros d' Hin. cbn [Backtester.last_rebalance_date]. apply Hno. now right.
Qed.

(** X15.  A frequency that is none of ["never"], ["daily"], ["weekly"] and
    ["monthly"] is not rejected, and nothing is ever traded under it: [run]
    never calls the planner, makes no buy and no sell, and does nothing but
    record the initial ledger, all cash, on each date of the range; it
    returns these records with an empty trade log, or raises what the first
    failing call of [get_holdings_value] raises. *)
Theorem run_unrecognised_frequency :
  frequency <> "never" -> frequency <> "daily" ->
  frequency <> "weekly" -> frequency <> "monthly" ->
  run =
  match records_of get_holdings_value prices
                   (Portfolio.init (BacktestConfig.initial_cash config))
                   (date_range (BacktestConfig.start_date config)
                               (BacktestConfig.end_date config)) with
  | Raise e => Raise e
  | Ok records => Ok (BacktestResult.mk records [])
  end.
Proof.
  intros Hn Hd Hw Hm. unfold Backtester.run.
  rewrite run_loop_no_rebalance.
  - cbn [Backtester.initial_state Backtester.current_portfolio].
    now destruct (records_of _ _ _ _).
  - intros d _. unfold Backtester._should_rebalance.
    apply String.eqb_neq in Hn, Hd, Hw, Hm. now rewrite Hn, Hd, Hw, Hm.
Qed.

(** X16.  With the frequency ["never"], [run] calls the planner and trades
    on the first date of the range and on no other: it raises what the
    planner or one of its trades raises on that date from the initial
    ledger; otherwise it records the ledger those trades left on the first
    date and on every later one, and returns these records with the trade
    log of the first date, or raises what the first failing call of
    [get_holdings_value] raises. *)
Theorem run_never_trades_on_first_date_only (d0 : date) (rest : list date) :
  frequency = "never" ->
  date_range (BacktestConfig.start_date config) (BacktestConfig.end_date config)
    = d0 :: rest ->
  run =
  match calculate_trades (Portfolio.init (BacktestConfig.initial_cash config))
                         target_weights (Backtester.prices_on prices d0) d0 with
  | Raise e => Raise e
  | Ok trades =>
      match Backtester.execute_trades
              trades (Portfolio.init (BacktestConfig.initial_cash config)) [] with
      | Raise e => Raise e
      | Ok (p, trs) =>
          match records_of get_holdings_value prices p (d0 :: rest) with
          | Raise e => Raise e
          | Ok records => Ok (BacktestResult.mk records trs)
          end
      end
  end.
Proof.
  intros Hfreq Hdates. unfold Backtester.run. rewrite Hdates.
  cbn [Backtester.run_loop records_of]. unfold Backtester.run_date.
  cbn [Backtester.initial_state Backtester.last_rebalance_date
       Backtester.current_portfolio Backtester.trade_records
       Backtester.equity_records].
  rewrite Hfreq. cbn [Backtester._should_rebalance String.eqb Ascii.eqb Bool.eqb].
  cbv beta iota.
  destruct (calculate_trades _ _ _ _) as [trades|e]; [|reflexivity].
  destruct (Backtester.execute_trades _ _ _) as [[p trs]|e]; [|reflexivity].
  cbv beta iota.
  destruct (Backtester.equity_record _ _ _ _) as [record|e]; [|reflexivity].
  rewrite run_loop_no_rebalance.
  - cbn [Backtester.current_portfolio Backtester.equity_records
         Backtester.trade_records].
    now destruct (records_of _ _ _ _).
  - intros d _. cbn [Backtester.last_rebalance_date]. now rewrite Hfreq.
Qed.

(** X17.  An empty range is no error: when the end date is before the
    start date, [run] returns an empty equity curve and an empty trade log,
    whatever the frequency, the prices and the planner. *)
Theorem run_empty_range :
  toordinal (BacktestConfig.end_date config)
    < toordinal (BacktestConfig.start_date config) ->
  run = Ok (BacktestResult.mk [] []).
Proof.
  intros Hlt. unfold Backtester.run, date_range, days_between.
  replace (Z.to_nat _) with 0%nat by lia. reflexivity.
Qed.

(** X18.  With the frequency ["weekly"], [run] never completes on a range
    that holds a date: whenever the start date is not after the end date it
    raises [TypeError], on its first date, before any trade or record. *)
Theorem run_weekly_never_completes :
  frequency = "weekly" ->
  toordinal (BacktestConfig.start_date config)
    <= toordinal (BacktestConfig.end_date config) ->
  run = Raise TypeError.
Proof.
  intros Hfreq Hle. apply run_weekly_raises; [exact Hfreq|].
  intros Hnil. apply (f_equal (@List.length date)) in Hnil.
  rewrite date_range_length in Hnil. simpl in Hnil. lia.
Qed.
End RunMore.

Section RunAsItStands.
Context {num : Type} `{PyNum num}.
Variable calculate_trades :
  Portfolio.t num -> Dict.t num -> Dict.t num -> date -> outcome (list (Trade.t num)).
Variable prices : list (PriceRow.t num).
Variable target_weights : Dict.t num.
Variable config : BacktestConfig.t num.

End RunAsItStands.

(** X19.  The weekly rule counts calendar days: on the date [k] days after
    the last rebalance date it answers whether [k] is at least 7, so it
    says no on the six dates that follow a rebalance and yes from the
    seventh on, across the ends of months and years. *)
Theorem weekly_rule_counts_calendar_days (last end_date current : date) (k : nat) :
  wf_date last ->
  nth_error (date_range last end_date) k = Some current ->
  Backtester._should_rebalance current (Some last) "weekly" =
  Ok (7 <=? Z.of_nat k).
Proof.
  intros Hwf Hk. rewrite should_rebalance_weekly_elapsed.
  apply days_from_nth in Hk as [_ Hord]; [|assumption].
  unfold days_between. rewrite Hord. do 2 f_equal. lia.
Qed.

(* ================================================================= *)
(** * The further properties at concrete inputs *)

Section MoreInstances.
Import Scenarios.
Local Open Scope float_scope.

(** X2 at a ledger of two stocks: selling the 4 MSFT shares held. *)
Lemma sell_all_removes_position_witness :
  let p' := fst (Portfolio.sell two_stocks "MSFT" 4 40 d_2024_01_18) in
  Dict.get "MSFT" (Portfolio.positions p') = None /\
  Dict.get "AAPL" (Portfolio.positions p') =
    Some (Position.mk "AAPL" 10 20 d_2024_01_15).
Proof.
  intros p'.
  destruct (@sell_all_removes_position float float_num two_stocks p' "MSFT" 4 40
              d_2024_01_18 (Position.mk "MSFT" 4 50 d_2024_01_15))
    as (Hgone & Hothers & _).
  - repeat constructor; simpl; intuition discriminate.
  - reflexivity.
  - vm_compute. reflexivity.
  - vm_compute. reflexivity.
  - split; [exact Hgone|]. rewrite Hothers by discriminate. reflexivity.
Defined.

(** X3 at the same ledger: a buy of MSFT leaves AAPL as it was. *)
Lemma other_positions_untouched_witness :
  Dict.get "AAPL"
    (Portfolio.positions (fst (Portfolio.buy two_stocks "MSFT" 2 40 d_2024_01_18))) =
  Some (Position.mk "AAPL" 10 20 d_2024_01_15).
Proof.
  destruct (@other_positions_untouched float float_num two_stocks "MSFT" "AAPL" 2 40
              d_2024_01_18) as [Hbuy _].
  - discriminate.
  - rewrite Hbuy. reflexivity.
Defined.

(** X4 at the same ledger: 5 AAPL sold at 25, then 2 MSFT bought at 40,
    leave 600 + 125 - 80 in cash. *)
Lemma cash_after_operations_witness :
  Portfolio.cash (fst (apply_ops two_stocks [sell_five; buy_two])) = 645.
Proof.
  rewrite (@cash_after_operations float float_num two_stocks
             (fst (apply_ops two_stocks [sell_five; buy_two])) [sell_five; buy_two]).
  - vm_compute. reflexivity.
  - vm_compute. reflexivity.
Defined.

(** X5 on binary64: 5 shares bought at 10 with 100 in cash, then -5 shares
    "bought" at 10: [ZeroDivisionError], and the cash is back to 100. *)
Lemma buy_to_zero_raises_after_paying_witness :
  let pA := fst (Portfolio.buy (Portfolio.init 100) "AAPL" 5 10 d_2024_01_15) in
  Portfolio.buy pA "AAPL" (-5) 10 d_2024_01_18 =
    (Portfolio.mk 100 [("AAPL", Position.mk "AAPL" 5 10 d_2024_01_15)],
     Raise ZeroDivisionError).
Proof.
  intros pA.
  destruct (@buy_to_zero_raises_after_paying float float_num (Portfolio.init 100) pA
              "AAPL" 5 10 (-5) 10 d_2024_01_15 d_2024_01_18) as [Hraise _].
  - reflexivity.
  - vm_compute. reflexivity.
  - vm_compute. reflexivity.
  - vm_compute. reflexivity.
  - rewrite Hraise. vm_compute. reflexivity.
Defined.

(** X6 on binary64: 3 shares of a third ticker bought at 100 and sold at
    110 leave the two positions as they were and 630 in cash. *)
Lemma buy_then_sell_restores_positions_witness :
  let pA := fst (Portfolio.buy two_stocks "TSLA" 3 100 d_2024_01_18) in
  Portfolio.sell pA "TSLA" 3 110 d_2024_01_22 =
    (Portfolio.mk 630 (Portfolio.positions two_stocks), Ok tt).
Proof.
  intros pA.
  rewrite (@buy_then_sell_restores_positions float float_num two_stocks pA "TSLA"
             3 100 110 d_2024_01_18 d_2024_01_22).
  - vm_compute. reflexivity.
  - reflexivity.
  - vm_compute. reflexivity.
  - vm_compute. reflexivity.
  - vm_compute. reflexivity.
  - vm_compute. reflexivity.
Defined.

(** X8 on binary64: a price for a ticker that is not held, and another
    order of the entries, change nothing. *)
Lemma total_value_reads_held_tickers_only_witness :
  Portfolio.get_total_value two_stocks (Some [("AAPL", 25); ("MSFT", 40)]) =
  Portfolio.get_total_value two_stocks
    (Some [("TSLA", 9); ("MSFT", 40); ("AAPL", 25)]).
Proof.
  apply (@total_value_reads_held_tickers_only float float_num two_stocks).
  intros pos [<-|[<-|[]]]; reflexivity.
Defined.

(** X11 on binary64: a trade of side ["hold"]. *)
Lemma other_sides_logged_not_executed_witness :
  Backtester.execute_trades [hold_trade] two_stocks [] = Ok (two_stocks, [hold_trade]).
Proof.
  apply (@other_sides_logged_not_executed float float_num [hold_trade] two_stocks []).
  repeat constructor; discriminate.
Defined.

(** X12 on binary64: a purchase of 100 shares at 100 on a ledger with 600
    in cash, a trade of side ["hold"] before it and another after it. *)
Lemma execute_trades_stops_at_failure_witness :
  Backtester.execute_trades ([hold_trade] ++ big_buy :: [hold_trade]) two_stocks [] =
  Raise InsufficientCash.
Proof.
  apply (@execute_trades_stops_at_failure float float_num [hold_trade] [hold_trade]
           big_buy two_stocks two_stocks two_stocks [] [hold_trade]
           (OpBuy "AAPL" 100 100 d_2024_01_15) InsufficientCash).
  - vm_compute. reflexivity.
  - reflexivity.
  - vm_compute. reflexivity.
Defined.

(** X14 on binary64: the ledger of two stocks on 2024-01-16, a date for
    which the table of AAPL prices has no row. *)
Lemma total_value_without_rows_witness :
  Portfolio.get_total_value two_stocks
    (Some (Backtester.prices_on aapl_rows (mkdate 2024 1 16))) = 600.
Proof.
  apply (@total_value_without_rows float float_num aapl_rows (mkdate 2024 1 16)
           two_stocks).
  - repeat constructor.
  - intros pos [<-|[<-|[]]]; vm_compute; reflexivity.
  - vm_compute. reflexivity.
  - vm_compute. reflexivity.
Defined.

(** X15 on binary64: the frequency ["Daily"], with a capital letter; with
    [get_holdings_value] as [portfolio.py] has it, and with the one the
    tests describe. *)
Lemma run_unrecognised_frequency_witness :
  Backtester.run buy_ten Portfolio.get_holdings_value aapl_rows [("AAPL", 1)]
                 (config_of d_2024_01_15 d_2024_01_18 "Daily") =
  Raise AttributeError /\
  Backtester.run buy_ten holdings_value_spec aapl_rows [("AAPL", 1)]
                 (config_of d_2024_01_15 d_2024_01_18 "Daily") =
  Ok (BacktestResult.mk
        [EquityRecord.mk d_2024_01_15 5000 5000 0;
         EquityRecord.mk (mkdate 2024 1 16) 5000 5000 0;
         EquityRecord.mk (mkdate 2024 1 17) 5000 5000 0;
         EquityRecord.mk d_2024_01_18 5000 5000 0]
        []).
Proof.
  split.
  - rewrite (@run_unrecognised_frequency float float_num buy_ten
               Portfolio.get_holdings_value aapl_rows [("AAPL", 1)]
               (config_of d_2024_01_15 d_2024_01_18 "Daily")); try discriminate.
    vm_compute. reflexivity.
  - rewrite (@run_unrecognised_frequency float float_num buy_ten
               holdings_value_spec aapl_rows [("AAPL", 1)]
               (config_of d_2024_01_15 d_2024_01_18 "Daily")); try discriminate.
    vm_compute. reflexivity.
Defined.

(** X16 on binary64: 10 shares bought at 100 on 2024-01-15 and held; with
    [get_holdings_value] as [portfolio.py] has it the first record fails;
    with the one the tests describe, the next two dates have no price and
    the last one values the shares at 120. *)
Lemma run_never_trades_on_first_date_only_witness :
  Backtester.run buy_ten Portfolio.get_holdings_value aapl_rows [("AAPL", 1)]
                 (config_of d_2024_01_15 d_2024_01_18 "never") =
  Raise AttributeError /\
  Backtester.run buy_ten holdings_value_spec aapl_rows [("AAPL", 1)]
                 (config_of d_2024_01_15 d_2024_01_18 "never") =
  Ok (BacktestResult.mk
        [EquityRecord.mk d_2024_01_15 5000 4000 1000;
         EquityRecord.mk (mkdate 2024 1 16) 4000 4000 0;
         EquityRecord.mk (mkdate 2024 1 17) 4000 4000 0;
         EquityRecord.mk d_2024_01_18 5200 4000 1200]
        [Trade.mk d_2024_01_15 "AAPL" 10 100 "buy"]).
Proof.
  split.
  - rewrite (@run_never_trades_on_first_date_only float float_num buy_ten
               Portfolio.get_holdings_value aapl_rows
               [("AAPL", 1)] (config_of d_2024_01_15 d_2024_01_18 "never")
               d_2024_01_15 [mkdate 2024 1 16; mkdate 2024 1 17; d_2024_01_18]).
    + vm_compute. reflexivity.
    + reflexivity.
    + vm_compute. reflexivity.
  - rewrite (@run_never_trades_on_first_date_only float float_num buy_ten
               holdings_value_spec aapl_rows
               [("AAPL", 1)] (config_of d_2024_01_15 d_2024_01_18 "never")
               d_2024_01_15 [mkdate 2024 1 16; mkdate 2024 1 17; d_2024_01_18]).
    + vm_compute. reflexivity.
    + reflexivity.
    + vm_compute. reflexivity.
Defined.

(** X17 on binary64: the end date three days before the start date, with
    the weekly frequency. *)
Lemma run_empty_range_witness :
  Backtester.run buy_ten Portfolio.get_holdings_value aapl_rows [("AAPL", 1)]
                 (config_of d_2024_01_18 d_2024_01_15 "weekly") =
  Ok (BacktestResult.mk [] []).
Proof.
  apply (@run_empty_range float float_num buy_ten Portfolio.get_holdings_value
           aapl_rows [("AAPL", 1)] (config_of d_2024_01_18 d_2024_01_15 "weekly")).
  vm_compute. reflexivity.
Defined.

(** X18 on binary64: a range of one date. *)
Lemma run_weekly_never_completes_witness :
  Backtester.run no_trades Portfolio.get_holdings_value aapl_rows [("AAPL", 1)]
                 (config_of d_2024_01_15 d_2024_01_15 "weekly") = Raise TypeError.
Proof.
  apply (@run_weekly_never_completes float float_num no_trades
           Portfolio.get_holdings_value aapl_rows [("AAPL", 1)]
           (config_of d_2024_01_15 d_2024_01_15 "weekly")).
  - reflexivity.
  - vm_compute. discriminate.
Defined.


(** X19 across the end of February of a leap year: 2024-03-02 is three
    days after 2024-02-28, and 2024-03-06 is seven days after it. *)
Lemma weekly_rule_counts_calendar_days_witness :
  Backtester._should_rebalance d_2024_03_02 (Some d_2024_02_28) "weekly" = Ok false /\
  Backtester._should_rebalance (mkdate 2024 3 6) (Some d_2024_02_28) "weekly" = Ok true.
Proof.
  split.
  - apply (@weekly_rule_counts_calendar_days d_2024_02_28 (mkdate 2024 3 10)
             d_2024_03_02 3).
    + repeat split; vm_compute; discriminate.
    + vm_compute. reflexivity.
  - apply (@weekly_rule_counts_calendar_days d_2024_02_28 (mkdate 2024 3 10)
             (mkdate 2024 3 6) 7).
    + repeat split; vm_compute; discriminate.
    + vm_compute. reflexivity.
Defined.

End MoreInstances.
